(** * GigaMovie: the Telegram bot of bot.py over the tables of models.py

    The development follows the layout of the repository:
    - [Py]: the Python values the code manipulates (text, decoded JSON,
      exceptions);
    - [GigaChat]: the class [GigaChatAPI] of bot.py (token cell, token
      refresh, completion call);
    - [Store]: the two tables of models.py and the session operations
      the handlers run on them;
    - [Bot]: [get_or_create_user] and the handlers of bot.py.

    The remote endpoints, the clock and the failures of the persistence
    layer are inputs of the model: every function takes what the outside
    world answers as an argument and returns what the code does with it. *)

From Stdlib Require Import ZArith List String Ascii Bool Lia Sorted Relations.
Import ListNotations.

Local Open Scope Z_scope.
Local Set Warnings "-register-all".

(* ------------------------------------------------------------------ *)
(** ** Python values *)

Module Py.

(** A Python [str] is a sequence of Unicode code points. *)
Definition pystr := list Z.

(** Literals are written as UTF-8 text and decoded to code points. *)
Fixpoint utf8_decode (s : string) (need : nat) (acc : Z) : pystr :=
  match s with
  | EmptyString => []
  | String c r =>
      let b := Z.of_N (N_of_ascii c) in
      match need with
      | O =>
          if b <? 128 then b :: utf8_decode r 0 0
          else if b <? 224 then utf8_decode r 1 (b - 192)
          else if b <? 240 then utf8_decode r 2 (b - 224)
          else utf8_decode r 3 (b - 240)
      | S O => (acc * 64 + (b - 128)) :: utf8_decode r 0 0
      | S n => utf8_decode r n (acc * 64 + (b - 128))
      end
  end.

Definition u (s : string) : pystr := utf8_decode s 0 0.
Arguments u s%_string.

Fixpoint pystr_eqb (a b : pystr) : bool :=
  match a, b with
  | [], [] => true
  | x :: a', y :: b' => (x =? y) && pystr_eqb a' b'
  | _, _ => false
  end.

(** [str.isspace] on one code point: the characters [str.strip()]
    removes when called without argument. *)
Definition py_isspace (c : Z) : bool :=
  ((9 <=? c) && (c <=? 13)) || ((28 <=? c) && (c <=? 32))
  || (c =? 133) || (c =? 160) || (c =? 5760)
  || ((8192 <=? c) && (c <=? 8202))
  || (c =? 8232) || (c =? 8233) || (c =? 8239) || (c =? 8287)
  || (c =? 12288).

Fixpoint lstrip (s : pystr) : pystr :=
  match s with
  | [] => []
  | c :: r => if py_isspace c then lstrip r else s
  end.

(** [s.strip()] *)
Definition strip (s : pystr) : pystr := rev (lstrip (rev (lstrip s))).

(** [s.split("_", 1)]: at most one cut, at the first underscore. *)
Fixpoint split_underscore_1 (s : pystr) : list pystr :=
  match s with
  | [] => [[]]
  | c :: r =>
      if c =? 95 then [[]; r]
      else match split_underscore_1 r with
           | h :: t => (c :: h) :: t
           | [] => [[c]]
           end
  end.

(** [s.lower()] on the alphabet Telegram allows in the name of a
    command: Latin letters, digits and the underscore. *)
Definition py_lower (s : pystr) : pystr :=
  map (fun c => if (65 <=? c) && (c <=? 90) then c + 32 else c) s.

(** [sep.join(parts)] *)
Fixpoint join (sep : pystr) (parts : list pystr) : pystr :=
  match parts with
  | [] => []
  | [p] => p
  | p :: rest => p ++ sep ++ join sep rest
  end.

(** What [response.json()] yields: the decoded document.  [JNull] is
    Python's [None].  [JFloat m e] is the double [m * 2^e]. *)
Inductive json : Type :=
| JNull
| JBool (b : bool)
| JInt (z : Z)
| JFloat (m e : Z)
| JStr (s : pystr)
| JArr (items : list json)
| JObj (fields : list (pystr * json)).

(** The exceptions that can travel through the code of bot.py: the
    classes of requests, of the interpreter, of datetime and of
    SQLAlchemy.  bot.py defines no exception class of its own.
    [JSONDecodeError] is the one of requests (2.27 and later), a
    subclass of [RequestException]. *)
Inductive exn : Type :=
| ConnectionError          (* requests: the call never got an answer *)
| HTTPError (status : Z)   (* requests: raise_for_status *)
| JSONDecodeError          (* requests: the body is not JSON *)
| KeyError
| IndexError
| TypeError
| AttributeError
| ValueError               (* datetime: year out of range *)
| OverflowError            (* datetime: instant out of range for time_t *)
| OSError                  (* datetime: instant refused by gmtime *)
| DetachedInstanceError    (* sqlalchemy: expired attribute, no session *)
| SQLAlchemyError.         (* sqlalchemy: a statement or the commit failed *)

(** [type(e).__name__] *)
Definition class_name (e : exn) : string :=
  match e with
  | ConnectionError => "ConnectionError"
  | HTTPError _ => "HTTPError"
  | JSONDecodeError => "JSONDecodeError"
  | KeyError => "KeyError"
  | IndexError => "IndexError"
  | TypeError => "TypeError"
  | AttributeError => "AttributeError"
  | ValueError => "ValueError"
  | OverflowError => "OverflowError"
  | OSError => "OSError"
  | DetachedInstanceError => "DetachedInstanceError"
  | SQLAlchemyError => "SQLAlchemyError"
  end.

(** [isinstance(e, requests.exceptions.RequestException)] *)
Definition is_RequestException (e : exn) : bool :=
  match e with
  | ConnectionError | HTTPError _ | JSONDecodeError => true
  | _ => false
  end.

(** What the interpreter raises when a subscript or a method does not
    fit the value it is applied to. *)
Definition is_lookup_error (e : exn) : bool :=
  match e with
  | KeyError | IndexError | TypeError | AttributeError => true
  | _ => false
  end.

(** Truth value of a decoded document, as [if v:] / [not v] see it. *)
Definition truthy (v : json) : bool :=
  match v with
  | JNull => false
  | JBool b => b
  | JInt z => negb (z =? 0)
  | JFloat m _ => negb (m =? 0)
  | JStr s => match s with [] => false | _ => true end
  | JArr l => match l with [] => false | _ => true end
  | JObj l => match l with [] => false | _ => true end
  end.

(** A decoded object keeps the last binding of a repeated key. *)
Fixpoint dict_get (k : pystr) (fields : list (pystr * json)) : option json :=
  match fields with
  | [] => None
  | (k', v) :: rest =>
      match dict_get k rest with
      | Some w => Some w
      | None => if pystr_eqb k k' then Some v else None
      end
  end.

(** [v[k]] for a text key [k]. *)
Definition getitem_key (v : json) (k : pystr) : exn + json :=
  match v with
  | JObj fields =>
      match dict_get k fields with
      | Some w => inr w
      | None => inl KeyError
      end
  | _ => inl TypeError
  end.

(** [v[0]] *)
Definition getitem_0 (v : json) : exn + json :=
  match v with
  | JArr (x :: _) => inr x
  | JArr [] => inl IndexError
  | JStr (c :: _) => inr (JStr [c])
  | JStr [] => inl IndexError
  | JObj _ => inl KeyError
  | _ => inl TypeError
  end.

(** [v.strip()] *)
Definition call_strip (v : json) : exn + pystr :=
  match v with
  | JStr s => inr (strip s)
  | _ => inl AttributeError
  end.

End Py.

(* ------------------------------------------------------------------ *)
(** ** class GigaChatAPI *)

Module GigaChat.
Import Py.

(** What one [requests.post] call comes back with: an exception of the
    transport, or a response with its status code and its body ([None]
    when the body is not a JSON document). *)
Inductive http_outcome : Type :=
| Transport_failure
| Response (status_code : Z) (body : option json).

(** The effects of the class that are visible from outside. *)
Inductive event : Type :=
| TokenPost                                   (* POST to the OAuth endpoint *)
| CompletionPost (bearer : json) (user_message : pystr)
| LogInfo
| LogError.

Definition is_token_post (ev : event) : bool :=
  match ev with TokenPost => true | _ => false end.

(** Number of calls to the token endpoint recorded in a trace. *)
Definition token_refreshes (tr : list event) : nat :=
  List.length (filter is_token_post tr).

(** The fields of an instance.  Instants are microseconds since the
    epoch, the resolution of [datetime]. *)
Record GigaChatAPI : Type := mkAPI {
  authorization_key : pystr;
  access_token : json;
  token_expiry : Z
}.

(** [__init__]: no token, expiry set to the instant of construction. *)
Definition init (key : pystr) (utcnow : Z) : GigaChatAPI :=
  mkAPI key JNull utcnow.

(** A method call: from the fields before to the fields after, the
    effects in order, and a value or the exception that leaves the
    method. *)
Record Out (A : Type) : Type := mkOut {
  out_self : GigaChatAPI;
  out_trace : list event;
  out_result : exn + A
}.
Arguments mkOut {A} _ _ _.
Arguments out_self {A} _.
Arguments out_trace {A} _.
Arguments out_result {A} _.

Definition M (A : Type) : Type := GigaChatAPI -> Out A.

Definition ret {A} (a : A) : M A := fun s => mkOut s [] (inr a).

Definition raise {A} (e : exn) : M A := fun s => mkOut s [] (inl e).

Definition lift {A} (r : exn + A) : M A := fun s => mkOut s [] r.

Definition emit (ev : event) : M unit := fun s => mkOut s [ev] (inr tt).

Definition bind {A B} (m : M A) (k : A -> M B) : M B := fun s =>
  match m s with
  | mkOut s1 t1 (inl e) => mkOut s1 t1 (inl e)
  | mkOut s1 t1 (inr a) =>
      match k a s1 with
      | mkOut s2 t2 r => mkOut s2 (t1 ++ t2) r
      end
  end.

(** [try: m  except C as e: h e], where [caught] decides
    [isinstance(e, C)]; any other exception goes on. *)
Definition try_except {A} (m : M A) (caught : exn -> bool) (h : exn -> M A)
  : M A := fun s =>
  match m s with
  | mkOut s1 t1 (inl e) =>
      if caught e then
        match h e s1 with
        | mkOut s2 t2 r => mkOut s2 (t1 ++ t2) r
        end
      else mkOut s1 t1 (inl e)
  | mkOut s1 t1 (inr a) => mkOut s1 t1 (inr a)
  end.

Declare Scope api_scope.
Delimit Scope api_scope with api.
Notation "x <- m ;; k" := (bind m (fun x => k))
  (at level 61, m at next level, right associativity) : api_scope.
Notation "m ;; k" := (bind m (fun _ => k))
  (at level 61, right associativity) : api_scope.
Local Open Scope api_scope.

Definition read_self : M GigaChatAPI := fun s => mkOut s [] (inr s).

Definition set_access_token (v : json) : M unit := fun s =>
  mkOut (mkAPI (authorization_key s) v (token_expiry s)) [] (inr tt).

Definition set_token_expiry (t : Z) : M unit := fun s =>
  mkOut (mkAPI (authorization_key s) (access_token s) t) [] (inr tt).

(** [requests.post(...)]: the answer, or the transport's exception. *)
Definition post (reply : http_outcome) : exn + (Z * option json) :=
  match reply with
  | Transport_failure => inl ConnectionError
  | Response code body => inr (code, body)
  end.

(** [response.raise_for_status()]: requests raises [HTTPError] for the
    client and server error codes, 400 to 599, and for nothing else. *)
Definition raise_for_status (response : Z * option json) : exn + unit :=
  let code := fst response in
  if (400 <=? code) && (code <? 600) then inl (HTTPError code) else inr tt.

(** [response.json()] *)
Definition response_json (response : Z * option json) : exn + json :=
  match snd response with
  | Some doc => inr doc
  | None => inl JSONDecodeError
  end.

(** The sentence this module cannot compute is
    [datetime.utcfromtimestamp(v / 1000)]: a floating-point division
    followed by a rounding to microseconds, or an exception when [v] is
    not a number or the instant is out of range.  It is a parameter of
    the class. *)
Section WithClock.

Variable utcfromtimestamp_div_1000 : json -> exn + Z.

(** [request_access_token], bot.py lines 73-97. *)
Definition request_access_token (reply : http_outcome) : M unit :=
  try_except
    (emit TokenPost ;;
     response <- lift (post reply) ;;
     lift (raise_for_status response) ;;
     token_info <- lift (response_json response) ;;
     tok <- lift (getitem_key token_info (u "access_token")) ;;
     set_access_token tok ;;
     expires_at <- lift (getitem_key token_info (u "expires_at")) ;;
     expiry <- lift (utcfromtimestamp_div_1000 expires_at) ;;
     set_token_expiry expiry ;;
     emit LogInfo)
    is_RequestException
    (fun e => emit LogError ;; raise e).

(** The test of line 69:
    [not self.access_token or datetime.utcnow() >= self.token_expiry]. *)
Definition needs_refresh (self : GigaChatAPI) (utcnow : Z) : bool :=
  negb (truthy (access_token self)) || (token_expiry self <=? utcnow).

(** [get_access_token], bot.py lines 63-71. *)
Definition get_access_token (utcnow : Z) (token_reply : http_outcome)
  : M json :=
  self <- read_self ;;
  (if needs_refresh self utcnow
   then request_access_token token_reply
   else ret tt) ;;
  self' <- read_self ;;
  ret (access_token self').

(** The fixed reply of line 132. *)
Definition FALLBACK : pystr :=
  u "Извините, я не смог обработать ваш запрос в данный момент.".

(** [generate_recipe], bot.py lines 99-132.  The token is fetched while
    the headers are built, before the [try]. *)
Definition generate_recipe (user_message : pystr) (utcnow : Z)
    (token_reply completion_reply : http_outcome) : M pystr :=
  bearer <- get_access_token utcnow token_reply ;;
  try_except
    (emit (CompletionPost bearer user_message) ;;
     response <- lift (post completion_reply) ;;
     lift (raise_for_status response) ;;
     response_data <- lift (response_json response) ;;
     choices <- lift (getitem_key response_data (u "choices")) ;;
     first <- lift (getitem_0 choices) ;;
     message <- lift (getitem_key first (u "message")) ;;
     content <- lift (getitem_key message (u "content")) ;;
     lift (call_strip content))
    is_RequestException
    (fun _ => emit LogError ;; ret FALLBACK).

End WithClock.

(** [datetime.utcfromtimestamp(v / 1000)] computed, for the witnesses.
    The quotient and the product by 1e6 are IEEE 754 binary64
    operations, each rounded to the nearest double, ties to even; a
    double is kept as a pair [(m, e)] standing for [m * 2^e].  The
    bounds are those of CPython on a platform with a 64-bit [time_t]
    and the gmtime of glibc. *)

(** The integer nearest to [n / d], ties to even, for [0 < d]. *)
Definition round_half_even (n d : Z) : Z :=
  let q := n / d in
  let r := n mod d in
  match 2 * r ?= d with
  | Lt => q
  | Gt => q + 1
  | Eq => if Z.even q then q else q + 1
  end.

(** The double nearest to [n / d], for [0 < d]. *)
Definition to_double (n d : Z) : Z * Z :=
  if n =? 0 then (0, 0)
  else
    let a := Z.abs n in
    let lg := Z.log2 a - Z.log2 d in
    let above := if 0 <=? lg then d * 2 ^ lg <=? a else d <=? a * 2 ^ (- lg) in
    let magnitude := if above then lg else lg - 1 in
    let e := Z.max (magnitude - 52) (-1074) in
    let m := if 0 <=? e then round_half_even a (d * 2 ^ e)
             else round_half_even (a * 2 ^ (- e)) d in
    (Z.sgn n * m, e).

(** [datetime.utcfromtimestamp(x)] for the double [x = m * 2^e], in
    microseconds since the epoch: [modf], the fraction times 1e6
    rounded half to even, the carry, then the three range checks. *)
Definition utcfromtimestamp_double (m e : Z) : exn + Z :=
  let scale := 2 ^ (- e) in
  let intpart := if 0 <=? e then m * 2 ^ e else Z.quot m scale in
  let '(ym, ye) :=
    if 0 <=? e then (0, 0) else to_double (Z.rem m scale * 1000000) scale in
  let floatpart :=
    if 0 <=? ye then ym * 2 ^ ye else round_half_even ym (2 ^ (- ye)) in
  let '(sec, us) :=
    if 1000000 <=? floatpart then (intpart + 1, floatpart - 1000000)
    else if floatpart <? 0 then (intpart - 1, floatpart + 1000000)
    else (intpart, floatpart) in
  if (sec <? - 2 ^ 63) || (2 ^ 63 <=? sec) then inl OverflowError
  else if (sec <? -67768040609740800) || (67767976233532799 <? sec)
  then inl OSError
  else if (sec <? -62135596800) || (253402300799 <? sec) then inl ValueError
  else inr (sec * 1000000 + us).

Definition utcfromtimestamp_quotient (n d : Z) : exn + Z :=
  let '(m, e) := to_double n d in utcfromtimestamp_double m e.

Definition utcfromtimestamp_exact (v : json) : exn + Z :=
  match v with
  | JInt ms => utcfromtimestamp_quotient ms 1000
  | JBool b => utcfromtimestamp_quotient (if b then 1 else 0) 1000
  | JFloat m e =>
      if 0 <=? e then utcfromtimestamp_quotient (m * 2 ^ e) 1000
      else utcfromtimestamp_quotient m (1000 * 2 ^ (- e))
  | _ => inl TypeError
  end.

(** The document at the path [choices[0].message.content], when every
    step of the path exists. *)
Definition content_at_path (doc : json) : option json :=
  match getitem_key doc (u "choices") with
  | inr choices =>
      match getitem_0 choices with
      | inr first =>
          match getitem_key first (u "message") with
          | inr message =>
              match getitem_key message (u "content") with
              | inr content => Some content
              | inl _ => None
              end
          | inl _ => None
          end
      | inl _ => None
      end
  | inl _ => None
  end.

Definition is_completion_post (ev : event) : bool :=
  match ev with CompletionPost _ _ => true | _ => false end.

(** The calls to the completion endpoint recorded in a trace. *)
Definition completion_posts (tr : list event) : list event :=
  filter is_completion_post tr.

(** A text with no white space at either end. *)
Definition is_trimmed (s : pystr) : bool :=
  match s with
  | [] => true
  | c :: _ => negb (py_isspace c)
  end
  && match rev s with
     | [] => true
     | c :: _ => negb (py_isspace c)
     end.

End GigaChat.

(* ------------------------------------------------------------------ *)
(** ** models.py: the tables and the session *)

Module Store.
Import Py.

(** A row of [users].  The two timestamp columns are filled by the
    server and never read by bot.py; they are left out. *)
Module User.
Record t : Type := mk {
  id : Z;
  telegram_id : Z;
  username : option pystr
}.
End User.

(** A row of [genres]. *)
Module Genre.
Record t : Type := mk {
  id : Z;
  genre_name : pystr;
  user_id : Z
}.
End Genre.

(** The database file.  Each table lists its rows by increasing rowid,
    the order in which SQLite's scan of the table returns them. *)
Record DB : Type := mkDB {
  users : list User.t;
  genres : list Genre.t
}.

(** [init_db()] on a fresh file. *)
Definition empty : DB := mkDB [] [].

(** The key SQLite gives to a new row of an [INTEGER PRIMARY KEY] table:
    one more than the largest key present, 1 in an empty table. *)
Definition next_id (ids : list Z) : Z := 1 + fold_right Z.max 0 ids.

Definition next_user_id (db : DB) : Z := next_id (map User.id (users db)).
Definition next_genre_id (db : DB) : Z := next_id (map Genre.id (genres db)).

(** What can go wrong in one session: the statement the code runs
    itself (SELECT or DELETE), the INSERT sent by the flush at the start
    of [commit()], and the COMMIT. *)
Record session_faults : Type := mkFaults {
  stmt_raises : bool;
  flush_raises : bool;
  commit_raises : bool
}.

Definition no_faults : session_faults := mkFaults false false false.

(** [db.query(User).filter(User.telegram_id == tgid).first()] *)
Definition query_user_first (tgid : Z) (db : DB) : option User.t :=
  find (fun r => User.telegram_id r =? tgid) (users db).

(** [db.add(User(telegram_id=tgid, username=username)); db.commit()],
    when both the INSERT and the COMMIT go through. *)
Definition insert_user (tgid : Z) (username : option pystr) (db : DB)
  : DB * User.t :=
  let row := User.mk (next_user_id db) tgid username in
  (mkDB (users db ++ [row]) (genres db), row).

(** [Genre.user_id == v] as a row filter.  Comparing the column with
    [None] is rendered [IS NULL], and the column is [nullable=False]. *)
Definition owned_by (v : option Z) (g : Genre.t) : bool :=
  match v with
  | Some uid => Genre.user_id g =? uid
  | None => false
  end.

(** [db.query(Genre).filter(Genre.user_id == v).all()] *)
Definition query_genres_all (v : option Z) (db : DB) : list Genre.t :=
  filter (owned_by v) (genres db).

(** [db.query(Genre).filter(Genre.user_id == v,
                            Genre.genre_name == name).first()] *)
Definition query_genre_first (v : option Z) (name : pystr) (db : DB)
  : option Genre.t :=
  find (fun g => owned_by v g && pystr_eqb (Genre.genre_name g) name)
       (genres db).

(** [db.query(Genre).filter(Genre.user_id == v).delete(); db.commit()] *)
Definition delete_genres (v : option Z) (db : DB) : DB :=
  mkDB (users db) (filter (fun g => negb (owned_by v g)) (genres db)).

(** [db.add(Genre(user_id=uid, genre_name=name)); db.commit()] *)
Definition insert_genre (uid : Z) (name : pystr) (db : DB) : DB :=
  mkDB (users db) (genres db ++ [Genre.mk (next_genre_id db) name uid]).

(** The labels a user has stored, in table order. *)
Definition labels_of (uid : Z) (db : DB) : list pystr :=
  map Genre.genre_name (query_genres_all (Some uid) db).

(** The Python object [get_or_create_user] hands back.  The session
    factory of models.py keeps [expire_on_commit] at its default, so:
    - a row found by the query keeps its attributes after [close()];
    - an object added and committed has every attribute expired by the
      commit and is detached by [close()]: reading one raises;
    - an object whose INSERT or COMMIT failed is an object without a
      row; it carries the key the flush gave it, if the flush got that
      far. *)
Inductive user_object : Type :=
| Loaded (row : User.t)
| Expired (row : User.t)
| Unpersisted (key : option Z) (tgid : Z) (username : option pystr).

(** [user.id] *)
Definition attr_id (user : user_object) : exn + option Z :=
  match user with
  | Loaded row => inr (Some (User.id row))
  | Expired _ => inl DetachedInstanceError
  | Unpersisted key _ _ => inr key
  end.

(** The row of the table an object stands for, if any. *)
Definition row_of (user : user_object) : option User.t :=
  match user with
  | Loaded row | Expired row => Some row
  | Unpersisted _ _ _ => None
  end.

(** What the next COMMIT on the connection writes besides its own
    session's statements.  The INSERT of a user whose own COMMIT failed
    was sent by the flush and is still open on the pooled connection
    when the handler's session takes it: a COMMIT of the handler makes
    that row durable too. *)
Definition commit_pending (user : user_object) (db : DB) : DB :=
  match user with
  | Unpersisted (Some _) tgid username => fst (insert_user tgid username db)
  | _ => db
  end.

End Store.

(* ------------------------------------------------------------------ *)
(** ** bot.py: get_or_create_user and the handlers *)

Module Bot.
Import Py Store.

(** [update.effective_user]: the sender's Telegram id and username. *)
Record tg_user : Type := mkTgUser {
  tg_id : Z;
  tg_username : option pystr
}.

(** [get_or_create_user], bot.py lines 157-178.  [user] is [None] until
    the query has answered; once the query has found nothing it is bound
    to the new object, before [add] and [commit] run.  The [except]
    clause only logs, and [return user] returns whatever is bound. *)
Definition get_or_create_user (f : session_faults)
    (effective_user : option tg_user) (db : DB) : DB * option user_object :=
  match effective_user with
  | None => (db, None)
  | Some sender =>
      let tgid := tg_id sender in
      let username := tg_username sender in
      if stmt_raises f then (db, None)
      else
        match query_user_first tgid db with
        | Some row => (db, Some (Loaded row))
        | None =>
            if flush_raises f then
              (db, Some (Unpersisted None tgid username))
            else if commit_raises f then
              (db, Some (Unpersisted (Some (next_user_id db)) tgid username))
            else
              let '(db', row) := insert_user tgid username db in
              (db', Some (Expired row))
        end
  end.

(** What a handler sends back through the gateway. *)
Inductive markup : Type :=
| NoMarkup
| ReplyKeyboardMarkup (rows : list (list pystr))
| ReplyKeyboardRemove
| InlineKeyboardMarkup (rows : list (list (pystr * pystr))).
    (* one button: its label and its callback_data *)

Inductive sent : Type :=
| ReplyText (text : pystr) (reply_markup : markup)
| ReplyMarkdown (text : pystr)
| EditMessageText (text : pystr).

Definition nl : pystr := [10].

(** [get_main_menu], lines 142-155. *)
Definition get_main_menu : markup :=
  ReplyKeyboardMarkup
    [[u "/setgenres"; u "/getgenres"]; [u "/getfilm"]; [u "/help"]].

Definition USER_NOT_FOUND : pystr := u "Ошибка: пользователь не найден.".

(** [start], lines 184-200. *)
Definition start (f : session_faults) (effective_user : option tg_user)
    (db : DB) : DB * sent :=
  let '(db1, user) := get_or_create_user f effective_user db in
  match user with
  | Some _ =>
      (db1, ReplyText
              (u "Добро пожаловать к GigaMovie!" ++ nl ++
               u "Наберите /help, чтобы увидеть список команд.")
              get_main_menu)
  | None =>
      (db1, ReplyText (u "Ошибка при регистрации пользователя.")
              ReplyKeyboardRemove)
  end.

(** [help_command], lines 202-214. *)
Definition help_command : sent :=
  ReplyText
    (u "Доступные команды:" ++ nl ++
     u "/start - Начать работу" ++ nl ++
     u "/help - Показать это сообщение" ++ nl ++
     u "/setgenres - Выбрать/переустановить любимые жанры" ++ nl ++
     u "/getgenres - Показать выбранные жанры" ++ nl ++
     u "/getfilm - Получить рекомендацию через GigaChat" ++ nl)
    get_main_menu.

(** Lines 218-221. *)
Definition AVAILABLE_GENRES : list pystr :=
  [u "Драма"; u "Комедия"; u "Боевик"; u "Триллер"; u "Ужасы";
   u "Фантастика"; u "Фэнтези"; u "Романтика"; u "Документальное кино";
   u "Мультфильмы/Анимация"].

(** The keyboard built by the loop of lines 245-250. *)
Definition genre_keyboard : markup :=
  InlineKeyboardMarkup
    (map (fun g => [(g, u "genre_" ++ g)]) AVAILABLE_GENRES).

(** [set_genres_command], lines 223-254.  A failure inside the [try] is
    logged and the keyboard is sent all the same. *)
Definition set_genres_command (fu fh : session_faults)
    (effective_user : option tg_user) (db : DB) : DB * sent :=
  let '(db1, user) := get_or_create_user fu effective_user db in
  match user with
  | None => (db1, ReplyText USER_NOT_FOUND NoMarkup)
  | Some user =>
      let db2 :=
        match attr_id user with
        | inl _ => db1
        | inr key =>
            if stmt_raises fh || commit_raises fh then db1
            else delete_genres key (commit_pending user db1)
        end in
      (db2, ReplyText
              (u "Выберите жанры заново (можно нажать несколько раз).")
              genre_keyboard)
  end.

Definition ALREADY_ADDED (chosen_genre : pystr) : pystr :=
  u "Жанр " ++ chosen_genre ++ u " уже был добавлен ранее.".

Definition ADDED (chosen_genre : pystr) : pystr :=
  u "Жанр " ++ chosen_genre ++ u " добавлен!".

Definition ADD_FAILED : pystr := u "Произошла ошибка при добавлении жанра.".

(** The [try] block of [genre_callback], lines 270-290, for the object
    [user] and the parsed label. *)
Definition record_genre (fh : session_faults) (user : user_object)
    (chosen_genre : pystr) (db : DB) : DB * sent :=
  match attr_id user with
  | inl _ => (db, EditMessageText ADD_FAILED)
  | inr key =>
      if stmt_raises fh then (db, EditMessageText ADD_FAILED)
      else
        match query_genre_first key chosen_genre db with
        | Some _ => (db, EditMessageText (ALREADY_ADDED chosen_genre))
        | None =>
            match key with
            | None => (db, EditMessageText ADD_FAILED)
                (* user_id = NULL is refused by the NOT NULL column *)
            | Some uid =>
                if flush_raises fh || commit_raises fh
                then (db, EditMessageText ADD_FAILED)
                else (insert_genre uid chosen_genre (commit_pending user db),
                      EditMessageText (ADDED chosen_genre))
            end
        end
  end.

(** [genre_callback], lines 256-290.  The subscript [[1]] of line 263 is
    outside any [try]. *)
Definition genre_callback (fu fh : session_faults)
    (effective_user : option tg_user) (data : pystr) (db : DB)
  : DB * (exn + sent) :=
  match split_underscore_1 data with
  | _ :: chosen_genre :: _ =>
      let '(db1, user) := get_or_create_user fu effective_user db in
      match user with
      | None => (db1, inr (EditMessageText USER_NOT_FOUND))
      | Some user =>
          let '(db2, out) := record_genre fh user chosen_genre db1 in
          (db2, inr out)
      end
  | _ => (db, inl IndexError)
  end.

Definition NO_GENRES : pystr := u "У вас пока нет выбранных жанров.".

(** The text of line 310 for a non-empty list of labels. *)
Definition genres_listing (labels : list pystr) : pystr :=
  u "Выбранные жанры:" ++ nl ++
  join nl (map (fun name => u "- " ++ name) labels).

(** [get_genres], lines 294-317. *)
Definition get_genres (fu fh : session_faults)
    (effective_user : option tg_user) (db : DB) : DB * sent :=
  let '(db1, user) := get_or_create_user fu effective_user db in
  match user with
  | None => (db1, ReplyText USER_NOT_FOUND NoMarkup)
  | Some user =>
      let failed :=
        ReplyText (u "Произошла ошибка при получении жанров.") NoMarkup in
      match attr_id user with
      | inl _ => (db1, failed)
      | inr key =>
          if stmt_raises fh then (db1, failed)
          else
            match query_genres_all key db1 with
            | [] => (db1, ReplyText NO_GENRES NoMarkup)
            | user_genres =>
                (db1, ReplyText
                        (genres_listing (map Genre.genre_name user_genres))
                        NoMarkup)
            end
      end
  end.

(** The prompt of lines 336-347. *)
Definition film_prompt (labels : list pystr) : pystr :=
  let genres_str :=
    match labels with
    | [] => u "нет (пока не выбрано)"
    | _ => join (u ", ") labels
    end in
  u "Пользователь выбрал следующие жанры:" ++ nl ++
  genres_str ++ nl ++ nl ++
  u "Пожалуйста, предложи интересный фильм в соответствии с этими жанрами, " ++
  u "или порекомендуй любой случайный вариант, если жанров нет.".

(** What the outside world answers while one update is handled. *)
Record world : Type := mkWorld {
  user_session : session_faults;      (* session of get_or_create_user *)
  handler_session : session_faults;   (* session opened by the handler *)
  utcnow : Z;
  token_reply : GigaChat.http_outcome;
  completion_reply : GigaChat.http_outcome
}.

(** The process: the database file and the module-level [giga_chat_api]. *)
Record state : Type := mkState {
  db : DB;
  giga_chat_api : GigaChat.GigaChatAPI
}.

(** One handled update: state after, calls and log lines of the
    GigaChat client, and what the handler sent ([None]: no handler is
    registered for the update; [inl e]: the handler let [e] escape). *)
Record handled : Type := mkHandled {
  after : state;
  api_trace : list GigaChat.event;
  output : option (exn + sent)
}.

Section WithClock.

Variable utcfromtimestamp_div_1000 : json -> exn + Z.

(** [get_film], lines 321-354.  Everything after the user check sits in
    one [try ... except Exception]. *)
Definition get_film (w : world) (effective_user : option tg_user)
    (s : state) : handled :=
  let '(db1, user) :=
    get_or_create_user (user_session w) effective_user (db s) in
  let api := giga_chat_api s in
  let failed :=
    ReplyText (u "Произошла ошибка при получении рекомендации.") NoMarkup in
  match user with
  | None =>
      mkHandled (mkState db1 api) [] (Some (inr (ReplyText USER_NOT_FOUND NoMarkup)))
  | Some user =>
      match attr_id user with
      | inl _ => mkHandled (mkState db1 api) [] (Some (inr failed))
      | inr key =>
          if stmt_raises (handler_session w)
          then mkHandled (mkState db1 api) [] (Some (inr failed))
          else
            let labels := map Genre.genre_name (query_genres_all key db1) in
            let o :=
              GigaChat.generate_recipe utcfromtimestamp_div_1000
                (film_prompt labels) (utcnow w)
                (token_reply w) (completion_reply w) api in
            mkHandled (mkState db1 (GigaChat.out_self o)) (GigaChat.out_trace o)
              (Some (inr match GigaChat.out_result o with
                         | inr film_suggestion => ReplyMarkdown film_suggestion
                         | inl _ => failed
                         end))
      end
  end.

(** [handle_text], lines 358-364. *)
Definition handle_text : sent :=
  ReplyText
    (u "Извините, я не понял сообщение. Наберите /help, чтобы увидеть список команд.")
    NoMarkup.

(** An incoming update, as far as the handlers look at it.  The
    command and text handlers also take edited messages, and the text
    handler channel posts; in those [update.message] is [None]. *)
Inductive content : Type :=
| Command (name : pystr)          (* "/name" *)
| Text (text : pystr)             (* text that is not a command *)
| CallbackQuery (data : pystr)    (* a press on an inline button *)
| EditedCommand (name : pystr)    (* "/name" in an edited message *)
| TextElsewhere (text : pystr).   (* text of an edited message or of a
                                     channel post *)

Record Update : Type := mkUpdate {
  effective_user : option tg_user;
  update_content : content
}.

(** [re.match("^genre_", data)] *)
Fixpoint starts_with (prefix s : pystr) : bool :=
  match prefix, s with
  | [], _ => true
  | p :: prefix', c :: s' => (p =? c) && starts_with prefix' s'
  | _ :: _, [] => false
  end.

Definition only_db (s : state) (r : DB * sent) : handled :=
  mkHandled (mkState (fst r) (giga_chat_api s)) [] (Some (inr (snd r))).

(** The command handlers of [main], lines 377-384.  [CommandHandler]
    compares the lower-cased name. *)
Definition dispatch_command (w : world) (sender : option tg_user)
    (name : pystr) (s : state) : handled :=
  let fu := user_session w in
  let fh := handler_session w in
  let command := py_lower name in
  if pystr_eqb command (u "start") then only_db s (start fu sender (db s))
  else if pystr_eqb command (u "help") then
    mkHandled s [] (Some (inr help_command))
  else if pystr_eqb command (u "setgenres") then
    only_db s (set_genres_command fu fh sender (db s))
  else if pystr_eqb command (u "getgenres") then
    only_db s (get_genres fu fh sender (db s))
  else if pystr_eqb command (u "getfilm") then get_film w sender s
  else mkHandled s [] None.

(** A handler run on an update whose [update.message] is [None].  On
    every path the handlers above end by a call of
    [update.message.reply_text]: it raises [AttributeError] after the
    work is done, and where an [except] clause catches that, the clause
    makes the same call and raises again. *)
Definition without_message (h : handled) : handled :=
  mkHandled (after h) (api_trace h)
    match output h with
    | Some _ => Some (inl AttributeError)
    | None => None
    end.

(** The handlers registered in [main], lines 377-389. *)
Definition dispatch (w : world) (upd : Update) (s : state) : handled :=
  let sender := effective_user upd in
  let fu := user_session w in
  let fh := handler_session w in
  match update_content upd with
  | Command name => dispatch_command w sender name s
  | EditedCommand name => without_message (dispatch_command w sender name s)
  | CallbackQuery data =>
      if starts_with (u "genre_") data then
        let '(db1, out) := genre_callback fu fh sender data (db s) in
        mkHandled (mkState db1 (giga_chat_api s)) [] (Some out)
      else mkHandled s [] None
  | Text _ => mkHandled s [] (Some (inr handle_text))
  | TextElsewhere _ => mkHandled s [] (Some (inl AttributeError))
  end.

(** The process after a sequence of updates, each with the world's
    answers while it is handled.  Each update finds the connection back
    in the pool with no transaction left open. *)
Fixpoint run (inputs : list (world * Update)) (s : state) : state :=
  match inputs with
  | [] => s
  | (w, upd) :: rest => run rest (after (dispatch w upd s))
  end.

End WithClock.

(** [at most one row of [users] per Telegram id] *)
Definition users_unique (d : DB) : Prop :=
  NoDup (map User.telegram_id (users d)).

(** [at most one row of [genres] per (user, label)] *)
Definition genres_unique (d : DB) : Prop :=
  NoDup (map (fun g => (Genre.user_id g, Genre.genre_name g)) (genres d)).

(** Number of rows of [genres] for a user and a label. *)
Definition genre_rows (uid : Z) (name : pystr) (d : DB) : nat :=
  List.length
    (filter (fun g => (Genre.user_id g =? uid)
                      && pystr_eqb (Genre.genre_name g) name)
            (genres d)).

(** Number of rows of [users] for a Telegram id. *)
Definition user_rows (tgid : Z) (d : DB) : nat :=
  List.length (filter (fun r => User.telegram_id r =? tgid) (users d)).

(** Keys as SQLite hands them out: positive, and larger further down
    the table. *)
Definition keys_increasing (keys : list Z) : Prop :=
  StronglySorted Z.lt keys /\ Forall (fun k => 0 < k) keys.

Definition tables_in_key_order (d : DB) : Prop :=
  keys_increasing (map User.id (users d))
  /\ keys_increasing (map Genre.id (genres d)).

(** The three writes the handlers send to the database. *)
Inductive store_step (d : DB) : DB -> Prop :=
| step_insert_user (tgid : Z) (username : option pystr) :
    store_step d (fst (insert_user tgid username d))
| step_insert_genre (uid : Z) (name : pystr) :
    store_step d (insert_genre uid name d)
| step_delete_genres (key : option Z) :
    store_step d (delete_genres key d).

End Bot.

(* ------------------------------------------------------------------ *)
(** ** Properties of the GigaChat client *)

Module GigaChatSpec.
Import Py GigaChat.
Local Open Scope api_scope.

Section WithClock.

Variable conv : json -> exn + Z.

(** [raise_for_status] passes exactly the codes outside 400..599. *)
Lemma raise_for_status_passes (code : Z) (body : option json) :
  raise_for_status (code, body) = inr tt <-> ~ (400 <= code < 600).
Proof.
  unfold raise_for_status; cbn [fst].
  destruct (400 <=? code) eqn:Hlo, (code <? 600) eqn:Hhi; cbn;
    split; intros H; try discriminate; try reflexivity; lia.
Qed.

(** Unfolds the method bodies down to a decision tree on what the
    endpoint answered. *)
Ltac run_api :=
  cbv beta iota zeta delta
    [request_access_token get_access_token generate_recipe
     try_except bind lift emit raise ret read_self
     set_access_token set_token_expiry post
     out_self out_trace out_result token_refreshes].

Ltac split_on_answers :=
  repeat match goal with
    | |- context [match ?answer with _ => _ end] =>
        lazymatch answer with
        | context [match _ with _ => _ end] => fail
        | _ => destruct answer eqn:?; cbv beta iota zeta
        end
    end.

(** Every run of [request_access_token] posts to the token endpoint
    exactly once. *)
Lemma request_access_token_one_post (reply : http_outcome) (self : GigaChatAPI) :
  token_refreshes (out_trace (request_access_token conv reply self)) = 1%nat.
Proof.
  run_api. split_on_answers; reflexivity.
Qed.

(** A well-formed answer with a status that passes: both fields are
    stored, in the order of lines 91 and 93. *)
Lemma request_access_token_success (self : GigaChatAPI) (code : Z)
    (doc tok raw : json) (expiry : Z) :
  ~ (400 <= code < 600) ->
  getitem_key doc (u "access_token") = inr tok ->
  getitem_key doc (u "expires_at") = inr raw ->
  conv raw = inr expiry ->
  request_access_token conv (Response code (Some doc)) self =
  mkOut (mkAPI (authorization_key self) tok expiry) [TokenPost; LogInfo] (inr tt).
Proof.
  intros Hcode Htok Hraw Hconv.
  apply raise_for_status_passes with (body := Some doc) in Hcode.
  run_api. rewrite Hcode. cbn [response_json snd].
  rewrite Htok, Hraw, Hconv. reflexivity.
Qed.

Lemma needs_refresh_true (self : GigaChatAPI) (now : Z) :
  needs_refresh self now = true <->
  truthy (access_token self) = false \/ token_expiry self <= now.
Proof.
  unfold needs_refresh.
  rewrite orb_true_iff, negb_true_iff, Z.leb_le. reflexivity.
Qed.

Lemma needs_refresh_false (self : GigaChatAPI) (now : Z) :
  needs_refresh self now = false <->
  truthy (access_token self) = true /\ now < token_expiry self.
Proof.
  unfold needs_refresh.
  rewrite orb_false_iff, negb_false_iff, Z.leb_gt. reflexivity.
Qed.

(** A held, unexpired token is returned as it is. *)
Lemma get_access_token_cached (self : GigaChatAPI) (now : Z)
    (reply : http_outcome) :
  needs_refresh self now = false ->
  get_access_token conv now reply self = mkOut self [] (inr (access_token self)).
Proof.
  intros H. unfold get_access_token, bind, read_self, ret. rewrite H.
  reflexivity.
Qed.

(** Otherwise the method is one run of [request_access_token]. *)
Lemma get_access_token_stale (self : GigaChatAPI) (now : Z)
    (reply : http_outcome) :
  needs_refresh self now = true ->
  get_access_token conv now reply self =
  match request_access_token conv reply self with
  | mkOut s1 t1 (inl e) => mkOut s1 t1 (inl e)
  | mkOut s1 t1 (inr _) => mkOut s1 t1 (inr (access_token s1))
  end.
Proof.
  intros H. unfold get_access_token, bind, read_self, ret. rewrite H.
  cbn [app].
  destruct (request_access_token conv reply self) as [s1 t1 [e|[]]];
    cbn; rewrite ?app_nil_r; reflexivity.
Qed.

Lemma get_access_token_count (self : GigaChatAPI) (now : Z)
    (reply : http_outcome) :
  token_refreshes (out_trace (get_access_token conv now reply self)) =
  if needs_refresh self now then 1%nat else 0%nat.
Proof.
  destruct (needs_refresh self now) eqn:H.
  - rewrite get_access_token_stale by assumption.
    pose proof (request_access_token_one_post reply self) as Hone.
    destruct (request_access_token conv reply self) as [s1 t1 [e|[]]];
      exact Hone.
  - rewrite get_access_token_cached by assumption. reflexivity.
Qed.

(** [generate_recipe] touches the fields and the token endpoint only
    through its call of [get_access_token]. *)
Lemma generate_recipe_token_part (msg : pystr) (now : Z)
    (token_reply completion_reply : http_outcome) (self : GigaChatAPI) :
  out_self (generate_recipe conv msg now token_reply completion_reply self) =
  out_self (get_access_token conv now token_reply self)
  /\ token_refreshes
       (out_trace (generate_recipe conv msg now token_reply completion_reply self)) =
     token_refreshes (out_trace (get_access_token conv now token_reply self)).
Proof.
  unfold generate_recipe.
  match goal with |- context [bind _ ?k self] => set (completion := k) end.
  unfold bind.
  destruct (get_access_token conv now token_reply self) as [s1 t1 [e|bearer]].
  - split; reflexivity.
  - subst completion.
    cbv beta iota zeta delta
      [try_except bind lift emit raise ret post out_self out_trace
       out_result token_refreshes].
    split; split_on_answers; cbn [out_self];
      rewrite ?filter_app, ?length_app; cbn; rewrite ?Nat.add_0_r;
      reflexivity.
Qed.

(** When the token is in hand, a completion call that fails in the
    transport or comes back with a 4xx or 5xx status yields the fixed
    reply. *)
Lemma generate_recipe_fallback (msg : pystr) (now : Z)
    (token_reply completion_reply : http_outcome) (self : GigaChatAPI)
    (bearer : json) :
  out_result (get_access_token conv now token_reply self) = inr bearer ->
  (completion_reply = Transport_failure \/
   exists code body, completion_reply = Response code body /\ 400 <= code < 600) ->
  out_result (generate_recipe conv msg now token_reply completion_reply self)
  = inr FALLBACK /\ FALLBACK <> [].
Proof.
  intros Htok Hfail. split; [|discriminate].
  unfold generate_recipe.
  match goal with |- context [bind _ ?k self] => set (completion := k) end.
  unfold bind.
  destruct (get_access_token conv now token_reply self) as [s1 t1 r1].
  cbn in Htok. subst r1 completion.
  destruct Hfail as [-> | (code & body & -> & Hcode)].
  - reflexivity.
  - cbv beta iota zeta delta
      [try_except bind lift emit raise ret post out_result raise_for_status fst].
    assert ((400 <=? code) && (code <? 600) = true) as ->
      by (apply andb_true_iff; split; [apply Z.leb_le | apply Z.ltb_lt]; lia).
    reflexivity.
Qed.

Lemma token_refreshes_app (t1 t2 : list event) :
  token_refreshes (t1 ++ t2) = (token_refreshes t1 + token_refreshes t2)%nat.
Proof.
  unfold token_refreshes. rewrite filter_app, length_app. reflexivity.
Qed.

(** C4.  [get_access_token] calls the token endpoint exactly when no
    token is held or the held token's expiry is at or before the current
    instant, and then once.  Hence, from a cell without a valid
    credential, two completion calls of which the second falls before
    the expiry of the credential the first one obtained make one refresh
    between them, and a later call at or after that expiry makes exactly
    one more. *)
Theorem token_refresh_policy :
  (forall (self : GigaChatAPI) (now : Z) (reply : http_outcome),
     let n := token_refreshes (out_trace (get_access_token conv now reply self)) in
     (n = 1%nat <-> truthy (access_token self) = false \/ token_expiry self <= now)
     /\ (n = 0%nat <-> truthy (access_token self) = true /\ now < token_expiry self))
  /\
  (forall (self0 : GigaChatAPI) (msg1 msg2 msg3 : pystr) (now1 now2 now3 : Z)
          (code : Z) (doc tok raw : json) (expiry : Z)
          (token_reply2 token_reply3 : http_outcome)
          (completion1 completion2 completion3 : http_outcome),
     truthy (access_token self0) = false \/ token_expiry self0 <= now1 ->
     ~ (400 <= code < 600) ->
     getitem_key doc (u "access_token") = inr tok ->
     truthy tok = true ->
     getitem_key doc (u "expires_at") = inr raw ->
     conv raw = inr expiry ->
     now2 < expiry ->
     expiry <= now3 ->
     let o1 := generate_recipe conv msg1 now1
                 (Response code (Some doc)) completion1 self0 in
     let o2 := generate_recipe conv msg2 now2 token_reply2 completion2
                 (out_self o1) in
     let o3 := generate_recipe conv msg3 now3 token_reply3 completion3
                 (out_self o2) in
     token_refreshes (out_trace o1 ++ out_trace o2) = 1%nat
     /\ token_refreshes (out_trace o3) = 1%nat).
Proof.
  split.
  - intros self now reply n. subst n.
    rewrite get_access_token_count.
    destruct (needs_refresh self now) eqn:H.
    + pose proof (proj1 (needs_refresh_true self now) H) as Ht.
      split; split; intros; try reflexivity; try assumption; try discriminate.
      destruct Ht; [intuition congruence | lia].
    + pose proof (proj1 (needs_refresh_false self now) H) as Hf.
      split; split; intros; try reflexivity; try assumption; try discriminate.
      destruct Hf; intuition (congruence || lia).
  - intros self0 msg1 msg2 msg3 now1 now2 now3 code doc tok raw expiry
      tr2 tr3 c1 c2 c3 Hstale Hcode Htok Htruthy Hraw Hconv Hin Hout o1 o2 o3.
    pose (self1 := mkAPI (authorization_key self0) tok expiry).
    assert (Hfirst :
      get_access_token conv now1 (Response code (Some doc)) self0 =
      mkOut self1 [TokenPost; LogInfo] (inr tok)).
    { rewrite get_access_token_stale by (apply needs_refresh_true; exact Hstale).
      rewrite (request_access_token_success self0 code doc tok raw expiry)
        by assumption.
      reflexivity. }
    destruct (generate_recipe_token_part msg1 now1 (Response code (Some doc))
                c1 self0) as [Hs1 Hn1].
    fold o1 in Hs1, Hn1. rewrite Hfirst in Hs1, Hn1. cbn in Hs1, Hn1.
    assert (Hcached : needs_refresh self1 now2 = false)
      by (apply needs_refresh_false; split; [exact Htruthy | exact Hin]).
    destruct (generate_recipe_token_part msg2 now2 tr2 c2 (out_self o1))
      as [Hs2 Hn2].
    fold o2 in Hs2, Hn2. rewrite Hs1 in Hs2, Hn2.
    rewrite (get_access_token_cached self1 now2 tr2 Hcached) in Hs2, Hn2.
    cbn in Hs2, Hn2.
    destruct (generate_recipe_token_part msg3 now3 tr3 c3 (out_self o2))
      as [_ Hn3].
    fold o3 in Hn3. rewrite Hs2, get_access_token_count in Hn3.
    assert (Hexpired : needs_refresh self1 now3 = true)
      by (apply needs_refresh_true; right; exact Hout).
    rewrite Hexpired in Hn3.
    split.
    + rewrite token_refreshes_app, Hn1, Hn2. reflexivity.
    + exact Hn3.
Qed.

(** C7, as amended.  For a completion answer that carries a JSON
    document and whose status passes [raise_for_status],
    [generate_recipe] returns the text at [choices[0].message.content]
    with surrounding white space removed when the path leads to a text;
    when the path is absent it fails with the interpreter's own error
    for the lookup that failed ([KeyError], [IndexError] or
    [TypeError]), and with [AttributeError] when the path leads to
    something that is not a text.  None of them is a
    [RequestException], so the method's [except] clause lets it go. *)
Theorem generate_recipe_first_choice (msg : pystr) (now : Z)
    (token_reply : http_outcome) (code : Z) (doc : json)
    (self : GigaChatAPI) (bearer : json) :
  out_result (get_access_token conv now token_reply self) = inr bearer ->
  ~ (400 <= code < 600) ->
  let result :=
    out_result (generate_recipe conv msg now token_reply
                  (Response code (Some doc)) self) in
  match content_at_path doc with
  | Some (JStr text) => result = inr (strip text)
  | Some _ => result = inl AttributeError
  | None =>
      exists e, result = inl e /\ is_lookup_error e = true
                /\ is_RequestException e = false
  end.
Proof.
  intros Htok Hcode result. subst result.
  apply raise_for_status_passes with (body := Some doc) in Hcode.
  unfold generate_recipe.
  match goal with |- context [bind _ ?k self] => set (completion := k) end.
  unfold bind.
  destruct (get_access_token conv now token_reply self) as [s1 t1 r1].
  cbn in Htok. subst r1 completion.
  cbv beta iota zeta delta
    [try_except bind lift emit raise ret post out_result content_at_path].
  rewrite Hcode. cbn [response_json snd].
  destruct (getitem_key doc (u "choices")) as [e1|choices] eqn:H1.
  { unfold getitem_key in H1.
    destruct doc; try (inversion H1; subst; cbn; eauto);
      destruct (dict_get _ _); inversion H1; subst; cbn; eauto. }
  destruct (getitem_0 choices) as [e2|first] eqn:H2.
  { unfold getitem_0 in H2.
    destruct choices as [| | | |[|]|[|]|]; inversion H2; subst; cbn; eauto. }
  destruct (getitem_key first (u "message")) as [e3|message] eqn:H3.
  { unfold getitem_key in H3.
    destruct first; try (inversion H3; subst; cbn; eauto);
      destruct (dict_get _ _); inversion H3; subst; cbn; eauto. }
  destruct (getitem_key message (u "content")) as [e4|content] eqn:H4.
  { unfold getitem_key in H4.
    destruct message; try (inversion H4; subst; cbn; eauto);
      destruct (dict_get _ _); inversion H4; subst; cbn; eauto. }
  destruct content; reflexivity.
Qed.

(** What a failed exchange leaves behind: one call was made, the expiry
    is the one held before, and the token is the one held before unless
    the answer carried an [access_token] field. *)
Lemma request_access_token_failure (reply : http_outcome)
    (self : GigaChatAPI) (e : exn) :
  out_result (request_access_token conv reply self) = inl e ->
  let self' := out_self (request_access_token conv reply self) in
  token_refreshes (out_trace (request_access_token conv reply self)) = 1%nat
  /\ token_expiry self' = token_expiry self
  /\ (access_token self' = access_token self
      \/ exists code doc,
           reply = Response code (Some doc)
           /\ getitem_key doc (u "access_token") = inr (access_token self')).
Proof.
  intros Hfail self'. subst self'.
  split; [apply request_access_token_one_post|].
  revert Hfail. run_api.
  destruct reply as [|code body];
    [intros _; split; [reflexivity | left; reflexivity]|].
  cbv beta iota.
  destruct (raise_for_status (code, body)) as [e1|[]];
    [destruct (is_RequestException e1); intros _;
     (split; [reflexivity | left; reflexivity])|].
  destruct body as [doc|]; cbn [response_json snd];
    [|intros _; split; [reflexivity | left; reflexivity]].
  destruct (getitem_key doc (u "access_token")) as [e2|tok] eqn:Htok;
    [destruct (is_RequestException e2); intros _;
     (split; [reflexivity | left; reflexivity])|].
  destruct (getitem_key doc (u "expires_at")) as [e3|raw].
  { destruct (is_RequestException e3); intros _;
      (split; [reflexivity
              | right; exists code, doc; split; [reflexivity | exact Htok]]). }
  destruct (conv raw) as [e4|t].
  { destruct (is_RequestException e4); intros _;
      (split; [reflexivity
              | right; exists code, doc; split; [reflexivity | exact Htok]]). }
  discriminate.
Qed.

(** C5.  [generate_recipe] is meant to return [FALLBACK], and never to
    raise, when the completion call fails in the transport or comes back
    with a status that is not 2xx; the comment of line 89 reads
    [raise_for_status] that way.  The code does so for transport
    failures and for the statuses 400 to 599
    ([generate_recipe_fallback]).  It does not for the other statuses:
    with status 300 and the JSON document [{}], [raise_for_status] lets
    the answer pass, the lookup of ["choices"] raises [KeyError], the
    [except] clause for [RequestException] does not catch it, and the
    method raises. *)
Theorem generate_recipe_status_300_escapes (msg : pystr) :
  out_result
    (generate_recipe conv msg 5 Transport_failure
       (Response 300 (Some (JObj [])))
       (mkAPI (u "key") (JStr (u "t1")) 9))
  = inl KeyError.
Proof. reflexivity. Qed.

(** The two places where a failed exchange is not what the design
    describes.  An answer with status 200 whose document has an
    [access_token] but no [expires_at] fails with [KeyError] after line
    91 has already stored the token: the held token is the one of the
    failed exchange, next to the old expiry.  And a status outside
    400..599 is no failure for [raise_for_status]: with status 300 the
    same document is read, and its token stored, just as with 200. *)
Lemma request_access_token_partial_update (key : pystr) (t0 : Z) :
  let doc := JObj [(u "access_token", JStr (u "abc"))] in
  request_access_token conv (Response 200 (Some doc)) (init key t0)
  = mkOut (mkAPI key (JStr (u "abc")) t0) [TokenPost] (inl KeyError)
  /\
  request_access_token conv (Response 300 (Some doc)) (init key t0)
  = mkOut (mkAPI key (JStr (u "abc")) t0) [TokenPost] (inl KeyError).
Proof. split; reflexivity. Qed.

(** No exception of the code carries one of the names the design gives
    to its typed errors. *)
Lemma no_typed_errors (e : exn) :
  class_name e <> "TokenAcquisitionError"%string
  /\ class_name e <> "MalformedResponseError"%string.
Proof. destruct e; split; discriminate. Qed.

(** C8, as amended.  When the call to the token endpoint fails in the
    transport, comes back with a status from 400 to 599, or comes back
    with a body that is not JSON or is a document without
    [access_token], [request_access_token] makes that one call and no
    other, leaves the held token and expiry as they were, and lets the
    exception of the failing statement reach the caller as it is: the
    one of requests ([ConnectionError], [HTTPError], [JSONDecodeError]),
    logged first, or the [KeyError] / [TypeError] of the lookup. *)
Theorem request_access_token_failure_propagates (self : GigaChatAPI) :
  request_access_token conv Transport_failure self
  = mkOut self [TokenPost; LogError] (inl ConnectionError)
  /\ (forall code body, 400 <= code < 600 ->
        request_access_token conv (Response code body) self
        = mkOut self [TokenPost; LogError] (inl (HTTPError code)))
  /\ (forall code, ~ (400 <= code < 600) ->
        request_access_token conv (Response code None) self
        = mkOut self [TokenPost; LogError] (inl JSONDecodeError))
  /\ (forall code doc e, ~ (400 <= code < 600) ->
        getitem_key doc (u "access_token") = inl e ->
        request_access_token conv (Response code (Some doc)) self
        = mkOut self [TokenPost] (inl e)
        /\ (e = KeyError \/ e = TypeError)).
Proof.
  split; [reflexivity|]. split; [|split].
  - intros code body Hcode. run_api. unfold raise_for_status. cbn [fst].
    assert ((400 <=? code) && (code <? 600) = true) as ->
      by (apply andb_true_iff; split; [apply Z.leb_le | apply Z.ltb_lt]; lia).
    reflexivity.
  - intros code Hcode.
    apply raise_for_status_passes with (body := @None json) in Hcode.
    run_api. rewrite Hcode. reflexivity.
  - intros code doc e Hcode Hget.
    apply raise_for_status_passes with (body := Some doc) in Hcode.
    assert (He : e = KeyError \/ e = TypeError).
    { unfold getitem_key in Hget.
      destruct doc; try (inversion Hget; right; reflexivity).
      destruct (dict_get _ _); inversion Hget. left; reflexivity. }
    split; [|exact He].
    run_api. rewrite Hcode. cbn [response_json snd]. rewrite Hget.
    destruct He as [-> | ->]; reflexivity.
Qed.

End WithClock.

(** Both parts of [token_refresh_policy] on a run of three calls: the
    cell starts empty at instant 0, the endpoint grants a token valid
    until one second after the epoch, the calls come at 10 and 20
    microseconds and at the expiry itself. *)
Lemma token_refresh_policy_witness :
  let doc := JObj [(u "access_token", JStr (u "t1"));
                   (u "expires_at", JInt 1000)] in
  let o1 := generate_recipe utcfromtimestamp_exact (u "a") 10
              (Response 200 (Some doc)) Transport_failure (init (u "key") 0) in
  let o2 := generate_recipe utcfromtimestamp_exact (u "b") 20
              Transport_failure Transport_failure (out_self o1) in
  let o3 := generate_recipe utcfromtimestamp_exact (u "c") 1000000
              Transport_failure Transport_failure (out_self o2) in
  token_refreshes (out_trace o1 ++ out_trace o2) = 1%nat
  /\ token_refreshes (out_trace o3) = 1%nat.
Proof.
  refine (proj2 (token_refresh_policy utcfromtimestamp_exact)
            (init (u "key") 0) (u "a") (u "b") (u "c") 10 20 1000000
            200 _ (JStr (u "t1")) (JInt 1000) 1000000
            Transport_failure Transport_failure
            Transport_failure Transport_failure Transport_failure
            _ _ _ _ _ _ _ _).
  - left; reflexivity.
  - lia.
  - reflexivity.
  - reflexivity.
  - reflexivity.
  - reflexivity.
  - lia.
  - lia.
Defined.

(** [generate_recipe_first_choice] on an answer whose text has white
    space on both sides, with a token held and valid. *)
Lemma generate_recipe_first_choice_witness :
  let doc :=
    JObj [(u "choices",
           JArr [JObj [(u "message",
                        JObj [(u "content", JStr (u "  Amelie "))])]])] in
  out_result (generate_recipe utcfromtimestamp_exact (u "q") 5
                Transport_failure (Response 200 (Some doc))
                (mkAPI (u "key") (JStr (u "t1")) 9))
  = inr (u "Amelie").
Proof.
  intros doc.
  assert (Hcode : ~ (400 <= 200 < 600)) by lia.
  exact (generate_recipe_first_choice utcfromtimestamp_exact (u "q") 5
           Transport_failure 200 doc (mkAPI (u "key") (JStr (u "t1")) 9)
           (JStr (u "t1")) eq_refl Hcode).
Defined.

(** [request_access_token_failure_propagates] on an answer with status
    503 and on one whose document has no [access_token]. *)
Lemma request_access_token_failure_witness :
  request_access_token utcfromtimestamp_exact (Response 503 None)
    (mkAPI (u "key") (JStr (u "t1")) 9)
  = mkOut (mkAPI (u "key") (JStr (u "t1")) 9) [TokenPost; LogError]
      (inl (HTTPError 503))
  /\ request_access_token utcfromtimestamp_exact
       (Response 200 (Some (JObj []))) (mkAPI (u "key") (JStr (u "t1")) 9)
     = mkOut (mkAPI (u "key") (JStr (u "t1")) 9) [TokenPost] (inl KeyError).
Proof.
  pose proof (request_access_token_failure_propagates utcfromtimestamp_exact
                (mkAPI (u "key") (JStr (u "t1")) 9)) as [_ [Hstatus [_ Hshape]]].
  split.
  - apply Hstatus. lia.
  - apply (Hshape 200 (JObj []) KeyError); [lia | reflexivity].
Defined.

(** C7 as it was stated does not hold: on the document [{}] the path
    is absent and what leaves the method is a [KeyError]; no exception
    named [MalformedResponseError] exists in the code. *)
Lemma generate_recipe_raises_KeyError :
  content_at_path (JObj []) = None
  /\ out_result
       (generate_recipe utcfromtimestamp_exact (u "q") 5 Transport_failure
          (Response 200 (Some (JObj [])))
          (mkAPI (u "key") (JStr (u "t1")) 9))
     = inl KeyError
  /\ ~ (exists e,
          out_result
            (generate_recipe utcfromtimestamp_exact (u "q") 5 Transport_failure
               (Response 200 (Some (JObj [])))
               (mkAPI (u "key") (JStr (u "t1")) 9))
          = inl e
          /\ class_name e = "MalformedResponseError"%string).
Proof.
  split; [reflexivity|]. split; [reflexivity|].
  intros (e & He & Hname).
  destruct (no_typed_errors e) as [_ H]. exact (H Hname).
Qed.

(** C8 as it was stated does not hold: on a 200 answer whose document
    has [access_token] and no [expires_at] the exchange fails, what
    reaches the caller is a [KeyError], not an exception named
    [TokenAcquisitionError], and the token held afterwards is the one
    of the failed exchange. *)
Lemma request_access_token_keeps_failed_token :
  out_result
    (request_access_token utcfromtimestamp_exact
       (Response 200 (Some (JObj [(u "access_token", JStr (u "abc"))])))
       (init (u "key") 0))
  = inl KeyError
  /\ class_name KeyError <> "TokenAcquisitionError"%string
  /\ access_token
       (out_self
          (request_access_token utcfromtimestamp_exact
             (Response 200 (Some (JObj [(u "access_token", JStr (u "abc"))])))
             (init (u "key") 0)))
     = JStr (u "abc")
  /\ access_token (init (u "key") 0) = JNull.
Proof.
  split; [reflexivity|]. split; [discriminate|]. split; reflexivity.
Qed.

End GigaChatSpec.

(* ------------------------------------------------------------------ *)
(** ** Properties of the store and of the handlers *)

Module BotSpec.
Import Py Store Bot.

Lemma pystr_eqb_eq (a b : pystr) : pystr_eqb a b = true <-> a = b.
Proof.
  revert b; induction a as [|x a IH]; intros [|y b]; cbn;
    try (split; [discriminate | discriminate]); [tauto|].
  rewrite andb_true_iff, Z.eqb_eq, IH.
  split; [intros [-> ->]; reflexivity | intros H; inversion H; auto].
Qed.

Lemma pystr_eqb_refl (a : pystr) : pystr_eqb a a = true.
Proof. apply pystr_eqb_eq; reflexivity. Qed.

(** Line 263 on a payload built by the keyboard's rule: the label is
    everything after the first underscore, later underscores included. *)
Lemma split_genre_payload (X : pystr) :
  split_underscore_1 (u "genre_" ++ X) = [u "genre"; X].
Proof. reflexivity. Qed.

Lemma starts_with_genre_payload (X : pystr) :
  starts_with (u "genre_") (u "genre_" ++ X) = true.
Proof. reflexivity. Qed.

(** *** Lists *)

Lemma NoDup_snoc {A} (l : list A) (x : A) :
  NoDup l -> ~ In x l -> NoDup (l ++ [x]).
Proof.
  induction l as [|a l IH]; intros Hnd Hx; cbn.
  - constructor; [intros []|constructor].
  - inversion Hnd as [|? ? Ha Hl]; subst. constructor.
    + rewrite in_app_iff. intros [H|[H|[]]]; [contradiction|].
      subst. apply Hx. left; reflexivity.
    + apply IH; [assumption|]. intros H. apply Hx. right; assumption.
Qed.

Lemma NoDup_map_filter {A B} (key : A -> B) (keep : A -> bool)
    (rows : list A) :
  NoDup (map key rows) -> NoDup (map key (filter keep rows)).
Proof.
  induction rows as [|r rows IH]; cbn; intros H; [constructor|].
  inversion H as [|? ? Hr Hrows]; subst.
  destruct (keep r); cbn; [constructor|]; auto.
  intros Hin. apply Hr.
  apply in_map_iff in Hin. destruct Hin as (y & Hy & Hin).
  apply filter_In in Hin. apply in_map_iff. exists y. tauto.
Qed.

Lemma find_none_filter {A} (p : A -> bool) (l : list A) :
  find p l = None <-> filter p l = [].
Proof.
  induction l as [|a l IH]; cbn; [tauto|].
  destruct (p a); [split; discriminate | exact IH].
Qed.

Lemma filter_filter_negb {A} (p : A -> bool) (l : list A) :
  filter p (filter (fun x => negb (p x)) l) = [].
Proof.
  induction l as [|a l IH]; cbn; [reflexivity|].
  destruct (p a) eqn:E; cbn; [exact IH|]. rewrite E. exact IH.
Qed.

(** A key that occurs once in a duplicate-free projection selects at
    most one element. *)
Lemma NoDup_map_count {A B} (f : A -> B) (p : A -> bool) (b : B) (l : list A) :
  (forall x, p x = true -> f x = b) ->
  NoDup (map f l) -> (List.length (filter p l) <= 1)%nat.
Proof.
  intros Hp. induction l as [|a l IH]; cbn; intros H; [lia|].
  inversion H as [|? ? Ha Hl]; subst.
  destruct (p a) eqn:E; [|auto].
  cbn. assert (filter p l = []) as ->; [|cbn; lia].
  destruct (filter p l) as [|y r] eqn:F; [reflexivity|].
  exfalso. apply Ha.
  assert (In y (filter p l)) as Hy by (rewrite F; left; reflexivity).
  apply filter_In in Hy. destruct Hy as [Hy Hpy].
  apply in_map_iff. exists y. split; [|assumption].
  rewrite (Hp y Hpy), (Hp a E). reflexivity.
Qed.

(** *** The tables *)

Lemma query_genre_first_none (uid : Z) (X : pystr) (d : DB) :
  query_genre_first (Some uid) X d = None <-> genre_rows uid X d = 0%nat.
Proof.
  unfold query_genre_first, genre_rows, owned_by.
  rewrite find_none_filter, length_zero_iff_nil. reflexivity.
Qed.

Lemma genre_rows_insert (uid : Z) (X : pystr) (d : DB) :
  genre_rows uid X (insert_genre uid X d) = S (genre_rows uid X d).
Proof.
  unfold genre_rows, insert_genre; cbn.
  rewrite filter_app, length_app; cbn.
  rewrite Z.eqb_refl, pystr_eqb_refl; cbn. lia.
Qed.

Lemma labels_of_insert (uid : Z) (X : pystr) (d : DB) :
  labels_of uid (insert_genre uid X d) = labels_of uid d ++ [X].
Proof.
  unfold labels_of, query_genres_all, insert_genre; cbn.
  rewrite filter_app, map_app; cbn. rewrite Z.eqb_refl. reflexivity.
Qed.

Lemma labels_of_insert_other (uid uid' : Z) (X : pystr) (d : DB) :
  uid' <> uid -> labels_of uid' (insert_genre uid X d) = labels_of uid' d.
Proof.
  intros H. unfold labels_of, query_genres_all, insert_genre; cbn.
  rewrite filter_app, map_app; cbn.
  destruct (Z.eqb_spec uid uid'); [congruence|]. cbn. apply app_nil_r.
Qed.

Lemma labels_of_delete (uid : Z) (d : DB) :
  labels_of uid (delete_genres (Some uid) d) = [].
Proof.
  unfold labels_of, query_genres_all, delete_genres; cbn.
  rewrite filter_filter_negb. reflexivity.
Qed.

Lemma labels_of_delete_other (uid uid' : Z) (d : DB) :
  uid' <> uid -> labels_of uid' (delete_genres (Some uid) d) = labels_of uid' d.
Proof.
  intros H. unfold labels_of, query_genres_all, delete_genres; cbn.
  f_equal. induction (genres d) as [|g l IH]; cbn; [reflexivity|].
  destruct (Z.eqb_spec (Genre.user_id g) uid) as [E|E]; cbn.
  - destruct (Z.eqb_spec (Genre.user_id g) uid'); [congruence | exact IH].
  - rewrite IH. reflexivity.
Qed.

Lemma query_genre_first_labels (uid : Z) (X : pystr) (d : DB) :
  query_genre_first (Some uid) X d = None <-> ~ In X (labels_of uid d).
Proof.
  unfold query_genre_first, labels_of, query_genres_all, owned_by.
  induction (genres d) as [|g l IH]; cbn; [tauto|].
  destruct (Genre.user_id g =? uid); cbn; [|exact IH].
  destruct (pystr_eqb (Genre.genre_name g) X) eqn:E.
  - apply pystr_eqb_eq in E. split; [discriminate | intros H; exfalso; auto].
  - rewrite IH. split; [intros H [H'|H']; [|auto] | tauto].
    subst. rewrite pystr_eqb_refl in E. discriminate.
Qed.

Lemma insert_genre_unique (uid : Z) (X : pystr) (d : DB) :
  genres_unique d -> query_genre_first (Some uid) X d = None ->
  genres_unique (insert_genre uid X d).
Proof.
  unfold genres_unique, insert_genre; cbn. intros Hnd Hnone.
  rewrite map_app; cbn. apply NoDup_snoc; [assumption|].
  intros Hin. apply in_map_iff in Hin. destruct Hin as (g & Hkey & Hg).
  apply (find_none _ _ Hnone) in Hg. cbn in Hg.
  inversion Hkey as [[Hu Hn]].
  rewrite Hu, Hn, Z.eqb_refl, pystr_eqb_refl in Hg. discriminate.
Qed.

Lemma delete_genres_unique (key : option Z) (d : DB) :
  genres_unique d -> genres_unique (delete_genres key d).
Proof. unfold genres_unique, delete_genres; cbn. apply NoDup_map_filter. Qed.

Lemma insert_user_unique (tgid : Z) (username : option pystr) (d : DB) :
  users_unique d -> query_user_first tgid d = None ->
  users_unique (fst (insert_user tgid username d)).
Proof.
  unfold users_unique, insert_user; cbn. intros Hnd Hnone.
  rewrite map_app; cbn. apply NoDup_snoc; [assumption|].
  intros Hin. apply in_map_iff in Hin. destruct Hin as (r & Hkey & Hr).
  apply (find_none _ _ Hnone) in Hr. cbn in Hr.
  rewrite Hkey, Z.eqb_refl in Hr. discriminate.
Qed.

Lemma genres_unique_rows (uid : Z) (X : pystr) (d : DB) :
  genres_unique d -> (genre_rows uid X d <= 1)%nat.
Proof.
  unfold genres_unique, genre_rows.
  apply NoDup_map_count with (b := (uid, X)).
  intros g Hg. apply andb_true_iff in Hg. destruct Hg as [Hu Hn].
  apply Z.eqb_eq in Hu. apply pystr_eqb_eq in Hn. congruence.
Qed.

Lemma users_unique_rows (tgid : Z) (d : DB) :
  users_unique d -> (user_rows tgid d <= 1)%nat.
Proof.
  unfold users_unique, user_rows.
  apply NoDup_map_count with (b := tgid).
  intros r Hr. apply Z.eqb_eq in Hr. exact Hr.
Qed.

Lemma user_rows_found (tgid : Z) (d : DB) (row : User.t) :
  query_user_first tgid d = Some row -> (user_rows tgid d >= 1)%nat.
Proof.
  unfold query_user_first, user_rows. intros H. apply find_some in H.
  assert (Hin : In row (filter (fun r => User.telegram_id r =? tgid) (users d)))
    by (apply filter_In; exact H).
  destruct (filter _ (users d)); [destruct Hin | cbn; lia].
Qed.

(** *** get_or_create_user *)

Lemma get_or_create_user_registered (f : session_faults) (sender : tg_user)
    (d : DB) (row : User.t) :
  stmt_raises f = false ->
  query_user_first (tg_id sender) d = Some row ->
  get_or_create_user f (Some sender) d = (d, Some (Loaded row)).
Proof.
  intros Hf Hrow. unfold get_or_create_user. rewrite Hf, Hrow. reflexivity.
Qed.

Lemma get_or_create_user_preserves (f : session_faults)
    (sender : option tg_user) (d : DB) :
  users_unique d -> genres_unique d ->
  users_unique (fst (get_or_create_user f sender d))
  /\ genres_unique (fst (get_or_create_user f sender d)).
Proof.
  intros Hu Hg. unfold get_or_create_user.
  destruct sender as [sender|]; [|split; assumption].
  destruct (stmt_raises f); [split; assumption|].
  destruct (query_user_first (tg_id sender) d) eqn:Hq; [split; assumption|].
  destruct (flush_raises f); [split; assumption|].
  destruct (commit_raises f); [split; assumption|].
  split; [|exact Hg].
  apply (insert_user_unique (tg_id sender) (tg_username sender) d Hu Hq).
Qed.

(** *** The handlers keep both tables free of duplicates *)

(** An object without a row comes from a lookup that found nothing, on
    tables the call left as they were. *)
Lemma get_or_create_user_unpersisted (f : session_faults)
    (sender : option tg_user) (d d1 : DB) (key : option Z) (tgid : Z)
    (username : option pystr) :
  get_or_create_user f sender d = (d1, Some (Unpersisted key tgid username)) ->
  d1 = d /\ query_user_first tgid d = None.
Proof.
  unfold get_or_create_user.
  destruct sender as [sender|]; [|discriminate].
  destruct (stmt_raises f); [discriminate|].
  destruct (query_user_first (tg_id sender) d) eqn:Hq; [discriminate|].
  destruct (flush_raises f);
    [intros H; inversion H; subst; split; [reflexivity | exact Hq]|].
  destruct (commit_raises f);
    [intros H; inversion H; subst; split; [reflexivity | exact Hq]|].
  discriminate.
Qed.

Lemma commit_pending_preserves (user : user_object) (d : DB) :
  (forall key tgid username,
     user = Unpersisted key tgid username -> query_user_first tgid d = None) ->
  users_unique d ->
  users_unique (commit_pending user d)
  /\ genres (commit_pending user d) = genres d.
Proof.
  intros Hopen Hu. unfold commit_pending.
  destruct user as [row|row|[key|] tgid username];
    try (split; [exact Hu | reflexivity]).
  split; [|reflexivity].
  apply insert_user_unique; [exact Hu|].
  apply (Hopen (Some key) tgid username). reflexivity.
Qed.

Lemma query_genre_first_commit_pending (user : user_object) (key : option Z)
    (X : pystr) (d : DB) :
  query_genre_first key X (commit_pending user d) = query_genre_first key X d.
Proof. destruct user as [row|row|[k|] tgid username]; reflexivity. Qed.

Lemma genres_unique_commit_pending (user : user_object) (d : DB) :
  genres_unique d -> genres_unique (commit_pending user d).
Proof. destruct user as [row|row|[k|] tgid username]; intros H; exact H. Qed.

Lemma record_genre_preserves (fh : session_faults) (user : user_object)
    (X : pystr) (d : DB) :
  (forall key tgid username,
     user = Unpersisted key tgid username -> query_user_first tgid d = None) ->
  users_unique d -> genres_unique d ->
  users_unique (fst (record_genre fh user X d))
  /\ genres_unique (fst (record_genre fh user X d)).
Proof.
  intros Hopen Hu Hg. unfold record_genre.
  destruct (attr_id user) as [e|key]; [split; assumption|].
  destruct (stmt_raises fh); [split; assumption|].
  destruct (query_genre_first key X d) eqn:Hq; [split; assumption|].
  destruct key as [uid|]; [|split; assumption].
  destruct (flush_raises fh || commit_raises fh); [split; assumption|].
  destruct (commit_pending_preserves user d Hopen Hu) as [Hu' _].
  split; [exact Hu'|]. apply insert_genre_unique.
  - apply genres_unique_commit_pending. exact Hg.
  - rewrite query_genre_first_commit_pending. exact Hq.
Qed.

Lemma genre_callback_preserves (fu fh : session_faults)
    (sender : option tg_user) (data : pystr) (d : DB) :
  users_unique d -> genres_unique d ->
  users_unique (fst (genre_callback fu fh sender data d))
  /\ genres_unique (fst (genre_callback fu fh sender data d)).
Proof.
  intros Hu Hg. unfold genre_callback.
  destruct (split_underscore_1 data) as [|? [|X ?]]; try (split; assumption).
  destruct (get_or_create_user_preserves fu sender d Hu Hg) as [Hu1 Hg1].
  pose proof (get_or_create_user_unpersisted fu sender d) as Hopen.
  destruct (get_or_create_user fu sender d) as [d1 [user|]]; cbn in Hu1, Hg1;
    [|split; assumption].
  assert (Hopen1 : forall key tgid username,
             user = Unpersisted key tgid username ->
             query_user_first tgid d1 = None).
  { intros key tgid username ->.
    destruct (Hopen d1 key tgid username eq_refl) as [-> Hq]. exact Hq. }
  destruct (record_genre_preserves fh user X d1 Hopen1 Hu1 Hg1) as [Hu2 Hg2].
  destruct (record_genre fh user X d1) as [d2 out]. split; assumption.
Qed.

Lemma set_genres_command_preserves (fu fh : session_faults)
    (sender : option tg_user) (d : DB) :
  users_unique d -> genres_unique d ->
  users_unique (fst (set_genres_command fu fh sender d))
  /\ genres_unique (fst (set_genres_command fu fh sender d)).
Proof.
  intros Hu Hg. unfold set_genres_command.
  destruct (get_or_create_user_preserves fu sender d Hu Hg) as [Hu1 Hg1].
  pose proof (get_or_create_user_unpersisted fu sender d) as Hopen.
  destruct (get_or_create_user fu sender d) as [d1 [user|]]; cbn in Hu1, Hg1;
    [|split; assumption].
  assert (Hopen1 : forall key tgid username,
             user = Unpersisted key tgid username ->
             query_user_first tgid d1 = None).
  { intros key tgid username ->.
    destruct (Hopen d1 key tgid username eq_refl) as [-> Hq]. exact Hq. }
  cbn [fst]. destruct (attr_id user) as [e|key]; [split; assumption|].
  destruct (stmt_raises fh || commit_raises fh); [split; assumption|].
  destruct (commit_pending_preserves user d1 Hopen1 Hu1) as [Hu' _].
  split; [exact Hu' | apply delete_genres_unique].
  apply genres_unique_commit_pending. exact Hg1.
Qed.

Lemma start_preserves (fu : session_faults) (sender : option tg_user) (d : DB) :
  users_unique d -> genres_unique d ->
  users_unique (fst (start fu sender d))
  /\ genres_unique (fst (start fu sender d)).
Proof.
  intros Hu Hg. unfold start.
  destruct (get_or_create_user_preserves fu sender d Hu Hg) as [Hu1 Hg1].
  destruct (get_or_create_user fu sender d) as [d1 [user|]]; split; assumption.
Qed.

Lemma get_genres_preserves (fu fh : session_faults)
    (sender : option tg_user) (d : DB) :
  users_unique d -> genres_unique d ->
  users_unique (fst (get_genres fu fh sender d))
  /\ genres_unique (fst (get_genres fu fh sender d)).
Proof.
  intros Hu Hg. unfold get_genres.
  destruct (get_or_create_user_preserves fu sender d Hu Hg) as [Hu1 Hg1].
  destruct (get_or_create_user fu sender d) as [d1 [user|]]; cbn in Hu1, Hg1;
    [|split; assumption].
  destruct (attr_id user) as [e|key]; [split; assumption|].
  destruct (stmt_raises fh); [split; assumption|].
  destruct (query_genres_all key d1); split; assumption.
Qed.

(** *** The handlers for a sender who has a row, in sessions without
    failures *)

Lemma set_genres_command_registered (sender : tg_user) (row : User.t) (d : DB) :
  query_user_first (tg_id sender) d = Some row ->
  set_genres_command no_faults no_faults (Some sender) d =
  (delete_genres (Some (User.id row)) d,
   ReplyText (u "Выберите жанры заново (можно нажать несколько раз).")
     genre_keyboard).
Proof.
  intros Hrow. unfold set_genres_command.
  rewrite (get_or_create_user_registered no_faults sender d row eq_refl Hrow).
  reflexivity.
Qed.

Lemma genre_callback_registered (sender : tg_user) (row : User.t)
    (X : pystr) (d : DB) :
  query_user_first (tg_id sender) d = Some row ->
  genre_callback no_faults no_faults (Some sender) (u "genre_" ++ X) d =
  match query_genre_first (Some (User.id row)) X d with
  | Some _ => (d, inr (EditMessageText (ALREADY_ADDED X)))
  | None => (insert_genre (User.id row) X d, inr (EditMessageText (ADDED X)))
  end.
Proof.
  intros Hrow. unfold genre_callback. rewrite split_genre_payload.
  rewrite (get_or_create_user_registered no_faults sender d row eq_refl Hrow).
  unfold record_genre. cbn [attr_id stmt_raises no_faults].
  destruct (query_genre_first (Some (User.id row)) X d); reflexivity.
Qed.

Lemma get_genres_registered (sender : tg_user) (row : User.t) (d : DB) :
  query_user_first (tg_id sender) d = Some row ->
  get_genres no_faults no_faults (Some sender) d =
  (d, ReplyText
        match labels_of (User.id row) d with
        | [] => NO_GENRES
        | labels => genres_listing labels
        end NoMarkup).
Proof.
  intros Hrow. unfold get_genres.
  rewrite (get_or_create_user_registered no_faults sender d row eq_refl Hrow).
  cbn [attr_id stmt_raises no_faults]. unfold labels_of.
  destruct (query_genres_all (Some (User.id row)) d); cbn [map]; reflexivity.
Qed.

(** *** The handlers at the first contact of a user

    [get_or_create_user] inserts the row, commits and closes its
    session.  The commit has expired every attribute of the object it
    returns and the object has no session left to reload them from:
    [user.id] raises inside the [try] of the handler, before the
    handler's own session has run a statement. *)

Lemma get_or_create_user_first_contact (sender : tg_user) (d : DB) :
  query_user_first (tg_id sender) d = None ->
  let row := User.mk (next_user_id d) (tg_id sender) (tg_username sender) in
  get_or_create_user no_faults (Some sender) d
  = (mkDB (users d ++ [row]) (genres d), Some (Expired row)).
Proof.
  intros Hq row. unfold get_or_create_user. rewrite Hq. reflexivity.
Qed.

Lemma query_user_first_appended (tgid : Z) (row : User.t) (d : DB) :
  query_user_first tgid d = None ->
  User.telegram_id row = tgid ->
  query_user_first tgid (mkDB (users d ++ [row]) (genres d)) = Some row.
Proof.
  unfold query_user_first. cbn [users]. intros Hq Hrow.
  induction (users d) as [|a l IH]; cbn.
  - rewrite Hrow, Z.eqb_refl. reflexivity.
  - cbn in Hq. destruct (User.telegram_id a =? tgid);
      [discriminate | apply IH; exact Hq].
Qed.

Lemma genre_callback_first_contact (fh : session_faults) (sender : tg_user)
    (X : pystr) (d : DB) :
  query_user_first (tg_id sender) d = None ->
  let row := User.mk (next_user_id d) (tg_id sender) (tg_username sender) in
  genre_callback no_faults fh (Some sender) (u "genre_" ++ X) d
  = (mkDB (users d ++ [row]) (genres d),
     inr (EditMessageText (u "Произошла ошибка при добавлении жанра."))).
Proof.
  intros Hq row. unfold genre_callback. rewrite split_genre_payload.
  rewrite (get_or_create_user_first_contact sender d Hq).
  unfold record_genre, ADD_FAILED. cbn [attr_id]. reflexivity.
Qed.

Lemma get_genres_new_user (fh : session_faults) (sender : tg_user) (d : DB) :
  query_user_first (tg_id sender) d = None ->
  let row := User.mk (next_user_id d) (tg_id sender) (tg_username sender) in
  get_genres no_faults fh (Some sender) d
  = (mkDB (users d ++ [row]) (genres d),
     ReplyText (u "Произошла ошибка при получении жанров.") NoMarkup).
Proof.
  intros Hq row. unfold get_genres.
  rewrite (get_or_create_user_first_contact sender d Hq).
  cbn [attr_id]. reflexivity.
Qed.

(** The tests of [dispatch_command] on a name given as a literal. *)
Ltac compare_names :=
  repeat match goal with
         | |- context [pystr_eqb (py_lower (u ?a)) (u ?b)] =>
             let E := fresh "E" in
             first [ assert (E : pystr_eqb (py_lower (u a)) (u b) = false)
                       by (vm_compute; reflexivity)
                   | assert (E : pystr_eqb (py_lower (u a)) (u b) = true)
                       by (vm_compute; reflexivity) ];
             rewrite E; clear E
         end.

Section WithClock.

Variable conv : json -> exn + Z.

Lemma get_film_preserves (w : world) (sender : option tg_user) (s : state) :
  users_unique (db s) -> genres_unique (db s) ->
  users_unique (db (after (get_film conv w sender s)))
  /\ genres_unique (db (after (get_film conv w sender s))).
Proof.
  intros Hu Hg. unfold get_film.
  destruct (get_or_create_user_preserves (user_session w) sender (db s) Hu Hg)
    as [Hu1 Hg1].
  destruct (get_or_create_user (user_session w) sender (db s))
    as [d1 [user|]]; cbn in Hu1, Hg1; [|split; assumption].
  destruct (attr_id user) as [e|key]; [split; assumption|].
  destruct (stmt_raises (handler_session w)); split; assumption.
Qed.

Lemma dispatch_command_preserves (w : world) (sender : option tg_user)
    (name : pystr) (s : state) :
  users_unique (db s) -> genres_unique (db s) ->
  users_unique (db (after (dispatch_command conv w sender name s)))
  /\ genres_unique (db (after (dispatch_command conv w sender name s))).
Proof.
  intros Hu Hg. unfold dispatch_command, only_db.
  destruct (pystr_eqb _ (u "start"));
    [apply start_preserves; assumption|].
  destruct (pystr_eqb _ (u "help")); [split; assumption|].
  destruct (pystr_eqb _ (u "setgenres"));
    [apply set_genres_command_preserves; assumption|].
  destruct (pystr_eqb _ (u "getgenres"));
    [apply get_genres_preserves; assumption|].
  destruct (pystr_eqb _ (u "getfilm"));
    [apply get_film_preserves; assumption | split; assumption].
Qed.

Lemma dispatch_preserves (w : world) (upd : Update) (s : state) :
  users_unique (db s) -> genres_unique (db s) ->
  users_unique (db (after (dispatch conv w upd s)))
  /\ genres_unique (db (after (dispatch conv w upd s))).
Proof.
  intros Hu Hg. unfold dispatch.
  destruct (update_content upd) as [name|text|data|name|text].
  - apply dispatch_command_preserves; assumption.
  - split; assumption.
  - destruct (starts_with (u "genre_") data); [|split; assumption].
    pose proof (genre_callback_preserves (user_session w) (handler_session w)
                  (effective_user upd) data (db s) Hu Hg) as H.
    destruct (genre_callback _ _ _ _ _) as [d1 out]. exact H.
  - unfold without_message. cbn [after].
    apply dispatch_command_preserves; assumption.
  - split; assumption.
Qed.

Lemma run_preserves (inputs : list (world * Update)) (s : state) :
  users_unique (db s) -> genres_unique (db s) ->
  users_unique (db (run conv inputs s))
  /\ genres_unique (db (run conv inputs s)).
Proof.
  revert s. induction inputs as [|[w upd] rest IH]; intros s Hu Hg; cbn.
  - split; assumption.
  - destruct (dispatch_preserves w upd s Hu Hg) as [Hu1 Hg1].
    apply IH; assumption.
Qed.

(** X20.  Whatever updates arrive, and whatever fails while they are
    handled, a database that starts without duplicates never holds two
    rows of [genres] for the same user and label.  For a sender who has
    a row of [users], in sessions without failures, a press on the
    button of label [X] answers "Жанр X уже был добавлен ранее." and
    leaves the tables as they are when a row for (user, [X]) exists,
    and otherwise appends one row, after which there is exactly one,
    and answers "Жанр X добавлен!". *)
Theorem one_genre_row_per_user_and_label :
  (forall (inputs : list (world * Update)) (s : state) (uid : Z) (X : pystr),
     users_unique (db s) -> genres_unique (db s) ->
     (genre_rows uid X (db (run conv inputs s)) <= 1)%nat)
  /\
  (forall (sender : tg_user) (row : User.t) (X : pystr) (d : DB),
     query_user_first (tg_id sender) d = Some row ->
     let uid := User.id row in
     let r := genre_callback no_faults no_faults (Some sender)
                (u "genre_" ++ X) d in
     ((genre_rows uid X d >= 1)%nat ->
        r = (d, inr (EditMessageText
                       (u "Жанр " ++ X ++ u " уже был добавлен ранее."))))
     /\ (genre_rows uid X d = 0%nat ->
           r = (mkDB (users d)
                     (genres d ++ [Genre.mk (next_genre_id d) X uid]),
                inr (EditMessageText (u "Жанр " ++ X ++ u " добавлен!")))
           /\ genre_rows uid X (fst r) = 1%nat)).
Proof.
  split.
  - intros inputs s uid X Hu Hg.
    apply genres_unique_rows. apply run_preserves; assumption.
  - intros sender row X d Hrow uid r. subst r uid.
    rewrite (genre_callback_registered sender row X d Hrow).
    unfold ALREADY_ADDED, ADDED.
    destruct (query_genre_first (Some (User.id row)) X d) eqn:Hq.
    + split; [reflexivity|].
      intros H0. apply query_genre_first_none in H0. congruence.
    + apply query_genre_first_none in Hq. split; [lia|].
      intros _. cbn [fst]. rewrite genre_rows_insert, Hq.
      unfold insert_genre. split; reflexivity.
Qed.

(** C3.  Two calls of [get_or_create_user] for the same Telegram id, in
    sessions without failures: the second changes nothing in the
    database and returns the row the first call returned.  From a
    database without duplicates no sequence of updates leads to two rows
    of [users] with one Telegram id, and once a call has returned an
    object that stands for a row there is exactly one row with that
    id. *)
Theorem get_or_create_user_idempotent :
  (forall (sender1 sender2 : tg_user) (d : DB),
     tg_id sender1 = tg_id sender2 ->
     let r1 := get_or_create_user no_faults (Some sender1) d in
     let r2 := get_or_create_user no_faults (Some sender2) (fst r1) in
     fst r2 = fst r1
     /\ exists row user1,
          snd r1 = Some user1 /\ row_of user1 = Some row
          /\ snd r2 = Some (Loaded row)
          /\ User.telegram_id row = tg_id sender1)
  /\
  (forall (inputs : list (world * Update)) (s : state) (tgid : Z),
     users_unique (db s) -> genres_unique (db s) ->
     (user_rows tgid (db (run conv inputs s)) <= 1)%nat)
  /\
  (forall (f : session_faults) (sender : tg_user) (d : DB)
          (user : user_object) (row : User.t),
     users_unique d ->
     snd (get_or_create_user f (Some sender) d) = Some user ->
     row_of user = Some row ->
     user_rows (tg_id sender) (fst (get_or_create_user f (Some sender) d))
     = 1%nat).
Proof.
  split; [|split].
  - intros sender1 sender2 d Hid r1 r2. subst r1 r2.
    destruct (query_user_first (tg_id sender1) d) as [row|] eqn:Hq.
    + rewrite (get_or_create_user_registered no_faults sender1 d row eq_refl Hq).
      cbn [fst snd].
      assert (Hq2 : query_user_first (tg_id sender2) d = Some row)
        by (rewrite <- Hid; exact Hq).
      rewrite (get_or_create_user_registered no_faults sender2 d row eq_refl Hq2).
      split; [reflexivity|]. exists row, (Loaded row).
      repeat split.
      apply find_some in Hq. apply Z.eqb_eq. tauto.
    + set (row := User.mk (next_user_id d) (tg_id sender1) (tg_username sender1)).
      assert (H1 : get_or_create_user no_faults (Some sender1) d =
                   (mkDB (users d ++ [row]) (genres d), Some (Expired row)))
        by (unfold get_or_create_user; rewrite Hq; reflexivity).
      rewrite H1. cbn [fst snd].
      assert (Hq2 : query_user_first (tg_id sender2)
                      (mkDB (users d ++ [row]) (genres d)) = Some row).
      { unfold query_user_first in *. cbn [users].
        rewrite <- Hid. clear Hid H1.
        induction (users d) as [|a l IH]; cbn.
        - rewrite Z.eqb_refl. reflexivity.
        - cbn in Hq. destruct (User.telegram_id a =? tg_id sender1);
            [discriminate | apply IH; exact Hq]. }
      rewrite (get_or_create_user_registered no_faults sender2 _ row eq_refl Hq2).
      split; [reflexivity|]. exists row, (Expired row). repeat split.
  - intros inputs s tgid Hu Hg.
    apply users_unique_rows. apply run_preserves; assumption.
  - intros f sender d user row Hu Hret Hrow. revert Hret.
    unfold get_or_create_user.
    destruct (stmt_raises f); [discriminate|].
    destruct (query_user_first (tg_id sender) d) as [found|] eqn:Hq.
    + intros _. cbn [fst].
      pose proof (users_unique_rows (tg_id sender) d Hu) as Hle.
      pose proof (user_rows_found (tg_id sender) d found Hq) as Hge. lia.
    + destruct (flush_raises f);
        [intros H; inversion H; subst; discriminate|].
      destruct (commit_raises f);
        [intros H; inversion H; subst; discriminate|].
      intros _. unfold insert_user, user_rows. cbn [fst users].
      rewrite filter_app, length_app. cbn. rewrite Z.eqb_refl.
      apply find_none_filter in Hq. unfold query_user_first in Hq.
      rewrite Hq. reflexivity.
Qed.

(** X22.  The handler takes whatever follows "genre_" as the label: for
    every text [X], in or out of [AVAILABLE_GENRES], a press carrying
    "genre_" + [X] from a sender who has a row of [users] and no row
    for [X], in sessions without failures, is routed to
    [genre_callback], appends the row (user, [X]) and answers
    "Жанр X добавлен!".  The list of ten labels only decides which
    buttons the keyboard shows. *)
Theorem genre_callback_accepts_any_label (w : world)
    (api : GigaChat.GigaChatAPI) (sender : tg_user) (row : User.t)
    (X : pystr) (d : DB) :
  user_session w = no_faults ->
  handler_session w = no_faults ->
  query_user_first (tg_id sender) d = Some row ->
  genre_rows (User.id row) X d = 0%nat ->
  let stored :=
    mkDB (users d)
         (genres d ++ [Genre.mk (next_genre_id d) X (User.id row)]) in
  genre_callback no_faults no_faults (Some sender) (u "genre_" ++ X) d
  = (stored, inr (EditMessageText (u "Жанр " ++ X ++ u " добавлен!")))
  /\ dispatch conv w (mkUpdate (Some sender) (CallbackQuery (u "genre_" ++ X)))
       (mkState d api)
     = mkHandled (mkState stored api) []
         (Some (inr (EditMessageText (u "Жанр " ++ X ++ u " добавлен!"))))
  /\ match genre_keyboard with
     | InlineKeyboardMarkup rows =>
         forall label data, In [(label, data)] rows ->
           In label AVAILABLE_GENRES /\ data = u "genre_" ++ label
     | _ => False
     end.
Proof.
  intros Hfu Hfh Hrow Hnone stored.
  assert (Hcall :
    genre_callback no_faults no_faults (Some sender) (u "genre_" ++ X) d
    = (stored, inr (EditMessageText (u "Жанр " ++ X ++ u " добавлен!")))).
  { rewrite (genre_callback_registered sender row X d Hrow).
    apply query_genre_first_none in Hnone. rewrite Hnone.
    unfold ADDED, insert_genre. subst stored. reflexivity. }
  split; [exact Hcall|]. split.
  - unfold dispatch. cbn [update_content effective_user db giga_chat_api].
    rewrite starts_with_genre_payload, Hfu, Hfh, Hcall. reflexivity.
  - unfold genre_keyboard. intros label data Hin.
    apply in_map_iff in Hin. destruct Hin as (g & Heq & Hg).
    inversion Heq; subst. split; [exact Hg | reflexivity].
Qed.

(** C10.  A press carrying "genre_" + [X] from a user with no stored row
    for [X] is meant to insert the row (user, [X]), whatever [X] is.
    When the press is the first contact of the user it does not: the
    dispatcher routes it to [genre_callback], the row of [users] is
    inserted, the object that comes back is expired and detached,
    [user.id] raises inside the [try], and the press is answered with
    the text for a failed insert; [genres] is left as it was, so no row
    named [X] is stored, in or out of [AVAILABLE_GENRES].  This holds
    whatever the handler's own session would have done. *)
Theorem first_press_stores_no_label (w : world) (sender : tg_user)
    (X : pystr) (s : state) :
  user_session w = no_faults ->
  query_user_first (tg_id sender) (db s) = None ->
  let row :=
    User.mk (next_user_id (db s)) (tg_id sender) (tg_username sender) in
  dispatch conv w (mkUpdate (Some sender) (CallbackQuery (u "genre_" ++ X))) s
  = mkHandled
      (mkState (mkDB (users (db s) ++ [row]) (genres (db s)))
         (giga_chat_api s))
      []
      (Some (inr (EditMessageText
                    (u "Произошла ошибка при добавлении жанра.")))).
Proof.
  intros Hfu Hq row. unfold dispatch.
  cbn [update_content effective_user].
  rewrite starts_with_genre_payload, Hfu.
  rewrite (genre_callback_first_contact (handler_session w) sender X (db s) Hq).
  reflexivity.
Qed.

(** C9.  [/getgenres] is meant to answer with the user's stored labels,
    or with the "none selected" text when the user has none.  As the
    first command of a new user it does neither: the row of [users] is
    inserted, the object that comes back is expired and detached,
    [user.id] raises inside the [try] before the query for the labels
    runs, and the answer is the error text, whatever [genres] holds and
    whatever the handler's own session would have done. *)
Theorem first_getgenres_answers_error (w : world) (sender : tg_user)
    (s : state) :
  user_session w = no_faults ->
  query_user_first (tg_id sender) (db s) = None ->
  let row :=
    User.mk (next_user_id (db s)) (tg_id sender) (tg_username sender) in
  let h := dispatch conv w (mkUpdate (Some sender) (Command (u "getgenres"))) s in
  h = mkHandled
        (mkState (mkDB (users (db s) ++ [row]) (genres (db s)))
           (giga_chat_api s))
        []
        (Some (inr (ReplyText (u "Произошла ошибка при получении жанров.")
                      NoMarkup)))
  /\ output h
     <> Some (inr (ReplyText (u "У вас пока нет выбранных жанров.") NoMarkup)).
Proof.
  intros Hfu Hq row h.
  assert (Hh : h = mkHandled
             (mkState (mkDB (users (db s) ++ [row]) (genres (db s)))
                (giga_chat_api s))
             []
             (Some (inr (ReplyText
                           (u "Произошла ошибка при получении жанров.")
                           NoMarkup)))).
  { subst h. unfold dispatch, dispatch_command.
    cbn [update_content effective_user]. compare_names. cbv iota.
    rewrite Hfu.
    rewrite (get_genres_new_user (handler_session w) sender (db s) Hq).
    reflexivity. }
  split; [exact Hh|]. rewrite Hh. cbn [output].
  intros H.
  assert (Htext : u "Произошла ошибка при получении жанров."
                  = u "У вас пока нет выбранных жанров.") by congruence.
  vm_compute in Htext. discriminate Htext.
Qed.

End WithClock.

(** C2.  For a sender who has a row, in sessions without failures:
    [/setgenres] leaves the sender without any stored label at once,
    whatever was stored, and two presses for [L1] and [L2] after it
    leave exactly these labels stored for the sender (one row when the
    two are the same label).  The rows of other users stay as they
    were. *)
Theorem set_genres_then_select (sender : tg_user) (row : User.t)
    (L1 L2 : pystr) (d : DB) :
  query_user_first (tg_id sender) d = Some row ->
  let uid := User.id row in
  let d1 := fst (set_genres_command no_faults no_faults (Some sender) d) in
  let d2 := fst (genre_callback no_faults no_faults (Some sender)
                   (u "genre_" ++ L1) d1) in
  let d3 := fst (genre_callback no_faults no_faults (Some sender)
                   (u "genre_" ++ L2) d2) in
  labels_of uid d1 = []
  /\ labels_of uid d3 = (if pystr_eqb L1 L2 then [L1] else [L1; L2])
  /\ forall other, other <> uid -> labels_of other d3 = labels_of other d.
Proof.
  intros Hrow uid d1 d2 d3.
  assert (Hd1 : d1 = delete_genres (Some uid) d)
    by (subst d1; rewrite (set_genres_command_registered sender row d Hrow);
        reflexivity).
  assert (Hl1 : labels_of uid d1 = [])
    by (rewrite Hd1; apply labels_of_delete).
  assert (Hrow1 : query_user_first (tg_id sender) d1 = Some row)
    by (rewrite Hd1; exact Hrow).
  assert (Hd2 : d2 = insert_genre uid L1 d1).
  { subst d2. rewrite (genre_callback_registered sender row L1 d1 Hrow1).
    fold uid.
    assert (query_genre_first (Some uid) L1 d1 = None) as ->
      by (apply query_genre_first_labels; rewrite Hl1; intros []).
    reflexivity. }
  assert (Hl2 : labels_of uid d2 = [L1])
    by (rewrite Hd2, labels_of_insert, Hl1; reflexivity).
  assert (Hrow2 : query_user_first (tg_id sender) d2 = Some row)
    by (rewrite Hd2; exact Hrow1).
  split; [exact Hl1|].
  assert (Hd3 : d3 = if pystr_eqb L1 L2 then d2 else insert_genre uid L2 d2).
  { subst d3. rewrite (genre_callback_registered sender row L2 d2 Hrow2).
    fold uid.
    destruct (pystr_eqb L1 L2) eqn:E.
    - apply pystr_eqb_eq in E. subst L2.
      destruct (query_genre_first (Some uid) L1 d2) eqn:Hq; [reflexivity|].
      apply query_genre_first_labels in Hq. rewrite Hl2 in Hq.
      exfalso. apply Hq. left; reflexivity.
    - assert (query_genre_first (Some uid) L2 d2 = None) as ->; [|reflexivity].
      apply query_genre_first_labels. rewrite Hl2. intros [H|[]].
      subst. rewrite pystr_eqb_refl in E. discriminate. }
  split.
  - rewrite Hd3. destruct (pystr_eqb L1 L2); [exact Hl2|].
    rewrite labels_of_insert, Hl2. reflexivity.
  - intros other Hother. rewrite Hd3.
    assert (Hkeep : labels_of other d2 = labels_of other d)
      by (rewrite Hd2, labels_of_insert_other, Hd1, labels_of_delete_other;
          [reflexivity | exact Hother | exact Hother]).
    destruct (pystr_eqb L1 L2); [exact Hkeep|].
    rewrite labels_of_insert_other; [exact Hkeep | exact Hother].
Qed.

(** X21.  For a sender who has a row of [users], in sessions without
    failures, [/getgenres] changes nothing and answers with the
    sender's stored labels in table order, a heading and then one line
    "- label" per label, or with "У вас пока нет выбранных жанров." when
    there is none; table order is insertion order: a press that adds a
    label puts it after all labels the sender already has. *)
Theorem get_genres_lists_in_insertion_order (sender : tg_user)
    (row : User.t) (d : DB) :
  query_user_first (tg_id sender) d = Some row ->
  let uid := User.id row in
  get_genres no_faults no_faults (Some sender) d
  = (d, ReplyText
          match labels_of uid d with
          | [] => u "У вас пока нет выбранных жанров."
          | labels =>
              u "Выбранные жанры:" ++ [10] ++
              join [10] (map (fun name => u "- " ++ name) labels)
          end NoMarkup)
  /\ forall X, ~ In X (labels_of uid d) ->
       labels_of uid
         (fst (genre_callback no_faults no_faults (Some sender)
                 (u "genre_" ++ X) d))
       = labels_of uid d ++ [X].
Proof.
  intros Hrow uid. split.
  - rewrite (get_genres_registered sender row d Hrow).
    unfold NO_GENRES, genres_listing, nl. reflexivity.
  - intros X HX.
    rewrite (genre_callback_registered sender row X d Hrow). fold uid.
    apply query_genre_first_labels in HX. rewrite HX.
    apply labels_of_insert.
Qed.

(** C6.  [get_or_create_user] is meant to return [None] whenever the
    lookup, the insert or the commit fails, as its docstring says.  The
    code does so when the lookup fails.  On a first contact whose COMMIT
    fails, or whose INSERT fails in the flush, it does not: [user] was
    bound to the new object before [add] and [commit] ran, the [except]
    clause only logs, and the function returns that object, for which
    the table has no row. *)
Theorem get_or_create_user_returns_unpersisted (sender : tg_user) :
  (exists user,
     get_or_create_user (mkFaults false false true) (Some sender) empty
     = (empty, Some user)
     /\ row_of user = None)
  /\ (exists user,
        get_or_create_user (mkFaults false true false) (Some sender) empty
        = (empty, Some user)
        /\ row_of user = None)
  /\ user_rows (tg_id sender) empty = 0%nat
  /\ forall flush commit d,
       get_or_create_user (mkFaults true flush commit) (Some sender) d
       = (d, None).
Proof.
  split; [eexists; split; reflexivity|].
  split; [eexists; split; reflexivity|].
  split; reflexivity.
Qed.

(** C1.  A press for a label the user has no row for is meant to insert
    one row and to answer "added".  At the first contact of a user it
    does neither: [get_or_create_user] inserts and commits the row of
    [users] and closes its session, the object it returns is expired
    and detached, [user.id] raises inside the [try] of the handler, and
    the press is answered with the text for a failed insert while
    [genres] stays as it was.  The same press sent again finds the row
    of [users] and does what the first was meant to do. *)
Theorem first_press_of_new_user_adds_nothing (sender : tg_user) (X : pystr)
    (d : DB) :
  query_user_first (tg_id sender) d = None ->
  let key := next_user_id d in
  let row := User.mk key (tg_id sender) (tg_username sender) in
  let first :=
    genre_callback no_faults no_faults (Some sender) (u "genre_" ++ X) d in
  first = (mkDB (users d ++ [row]) (genres d),
           inr (EditMessageText (u "Произошла ошибка при добавлении жанра.")))
  /\ genre_rows key X (fst first) = genre_rows key X d
  /\ (genre_rows key X d = 0%nat ->
        genre_callback no_faults no_faults (Some sender) (u "genre_" ++ X)
          (fst first)
        = (mkDB (users d ++ [row])
                (genres d ++ [Genre.mk (next_genre_id d) X key]),
           inr (EditMessageText (u "Жанр " ++ X ++ u " добавлен!")))).
Proof.
  intros Hq key row first. subst first.
  rewrite (genre_callback_first_contact no_faults sender X d Hq).
  fold key. fold row. cbn [fst].
  split; [reflexivity|]. split; [reflexivity|].
  intros Hnone.
  assert (Hrow : query_user_first (tg_id sender)
                   (mkDB (users d ++ [row]) (genres d)) = Some row)
    by (apply query_user_first_appended; [exact Hq | reflexivity]).
  rewrite (genre_callback_registered sender row X _ Hrow).
  assert (query_genre_first (Some (User.id row)) X
            (mkDB (users d ++ [row]) (genres d)) = None) as ->
    by (apply query_genre_first_none; exact Hnone).
  unfold ADDED, insert_genre. reflexivity.
Qed.

(** *** First contact and the scenario of the design's §8 *)

(** /start, /setgenres, two presses on the same button, /getgenres and
    /getfilm for a new user, with an endpoint that grants a token and
    answers the completion call. *)
Example scenario_fresh_user :
  let sender := Some (mkTgUser 42 None) in
  let grant := GigaChat.Response 200
    (Some (JObj [(u "access_token", JStr (u "t1"));
                 (u "expires_at", JInt 1000)])) in
  let answer := GigaChat.Response 200
    (Some (JObj [(u "choices",
            JArr [JObj [(u "message",
                   JObj [(u "content", JStr (u " Amelie "))])]])])) in
  let w := mkWorld no_faults no_faults 10 grant answer in
  let step c s := dispatch GigaChat.utcfromtimestamp_exact w
                    (mkUpdate sender c) s in
  let h1 := step (Command (u "start")) (mkState empty (GigaChat.init [] 0)) in
  let h2 := step (Command (u "setgenres")) (after h1) in
  let h3 := step (CallbackQuery (u "genre_Комедия")) (after h2) in
  let h4 := step (CallbackQuery (u "genre_Комедия")) (after h3) in
  let h5 := step (Command (u "getgenres")) (after h4) in
  let h6 := step (Command (u "getfilm")) (after h5) in
  output h2 = Some (inr (ReplyText
                (u "Выберите жанры заново (можно нажать несколько раз).")
                genre_keyboard))
  /\ output h3 = Some (inr (EditMessageText (u "Жанр Комедия добавлен!")))
  /\ output h4 = Some (inr (EditMessageText
                             (u "Жанр Комедия уже был добавлен ранее.")))
  /\ output h5 = Some (inr (ReplyText
                             (u "Выбранные жанры:" ++ nl ++ u "- Комедия")
                             NoMarkup))
  /\ api_trace h6 = [GigaChat.TokenPost; GigaChat.LogInfo;
                     GigaChat.CompletionPost (JStr (u "t1"))
                       (film_prompt [u "Комедия"])]
  /\ output h6 = Some (inr (ReplyMarkdown (u "Amelie")))
  /\ genres (db (after h6)) = [Genre.mk 1 (u "Комедия") 1].
Proof. vm_compute. repeat split. Qed.

(** *** The theorems on a small database

    One user, Telegram id 42, with one stored label. *)

Lemma one_genre_row_witness :
  let sender := mkTgUser 42 (Some (u "ann")) in
  let d0 := mkDB [User.mk 1 42 (Some (u "ann"))] [Genre.mk 1 (u "Драма") 1] in
  let d1 := mkDB [User.mk 1 42 (Some (u "ann"))]
                 [Genre.mk 1 (u "Драма") 1; Genre.mk 2 (u "Комедия") 1] in
  let press := (mkWorld no_faults no_faults 0
                  GigaChat.Transport_failure GigaChat.Transport_failure,
                mkUpdate (Some sender) (CallbackQuery (u "genre_Комедия"))) in
  genre_callback no_faults no_faults (Some sender)
    (u "genre_" ++ u "Комедия") d0
  = (d1, inr (EditMessageText (u "Жанр Комедия добавлен!")))
  /\ genre_callback no_faults no_faults (Some sender)
       (u "genre_" ++ u "Комедия") d1
     = (d1, inr (EditMessageText (u "Жанр Комедия уже был добавлен ранее.")))
  /\ genre_rows 1 (u "Комедия") d1 = 1%nat
  /\ (genre_rows 1 (u "Комедия")
        (db (run GigaChat.utcfromtimestamp_exact [press; press]
               (mkState d0 (GigaChat.init [] 0)))) <= 1)%nat.
Proof.
  intros sender d0 d1 press.
  assert (Eadded : u "Жанр " ++ u "Комедия" ++ u " добавлен!"
                   = u "Жанр Комедия добавлен!") by (vm_compute; reflexivity).
  assert (Ealready : u "Жанр " ++ u "Комедия" ++ u " уже был добавлен ранее."
                     = u "Жанр Комедия уже был добавлен ранее.")
    by (vm_compute; reflexivity).
  pose proof (proj2 (one_genre_row_per_user_and_label
                       GigaChat.utcfromtimestamp_exact)
                sender (User.mk 1 42 (Some (u "ann"))) (u "Комедия") d0
                eq_refl) as Hfirst.
  pose proof (proj2 (one_genre_row_per_user_and_label
                       GigaChat.utcfromtimestamp_exact)
                sender (User.mk 1 42 (Some (u "ann"))) (u "Комедия") d1
                eq_refl) as Hsecond.
  cbv zeta in Hfirst, Hsecond.
  destruct Hfirst as [_ Hfirst]. destruct (Hfirst eq_refl) as [Hadded Hone].
  destruct Hsecond as [Hsecond _].
  assert (Hstored : (genre_rows 1 (u "Комедия") d1 >= 1)%nat)
    by (vm_compute; apply le_n).
  specialize (Hsecond Hstored).
  rewrite Eadded in Hadded. rewrite Ealready in Hsecond.
  split; [exact Hadded|]. split; [exact Hsecond|].
  split; [rewrite Hadded in Hone; exact Hone|].
  apply (proj1 (one_genre_row_per_user_and_label
                  GigaChat.utcfromtimestamp_exact)).
  - constructor; [intros [] | constructor].
  - constructor; [intros [] | constructor].
Defined.

Lemma get_or_create_user_idempotent_witness :
  let sender := mkTgUser 7 None in
  let r1 := get_or_create_user no_faults (Some sender) empty in
  let r2 := get_or_create_user no_faults (Some sender) (fst r1) in
  fst r2 = fst r1
  /\ (user_rows 7
        (db (run GigaChat.utcfromtimestamp_exact
               [(mkWorld no_faults no_faults 0 GigaChat.Transport_failure
                   GigaChat.Transport_failure,
                 mkUpdate (Some sender) (Command (u "start")))]
               (mkState empty (GigaChat.init [] 0)))) <= 1)%nat
  /\ user_rows 7 (fst r1) = 1%nat.
Proof.
  intros sender r1 r2.
  pose proof (get_or_create_user_idempotent GigaChat.utcfromtimestamp_exact)
    as [Hsame [Hreach Hone]].
  split; [|split].
  - exact (proj1 (Hsame sender sender empty eq_refl)).
  - apply Hreach; constructor.
  - apply (Hone no_faults sender empty (Expired (User.mk 1 7 None))
             (User.mk 1 7 None)); [constructor | reflexivity | reflexivity].
Defined.

Lemma genre_callback_accepts_any_label_witness :
  let sender := mkTgUser 42 (Some (u "ann")) in
  let d0 := mkDB [User.mk 1 42 (Some (u "ann"))] [Genre.mk 1 (u "Драма") 1] in
  ~ In (u "Вестерн") AVAILABLE_GENRES
  /\ genre_callback no_faults no_faults (Some sender)
       (u "genre_" ++ u "Вестерн") d0
     = (mkDB [User.mk 1 42 (Some (u "ann"))]
             [Genre.mk 1 (u "Драма") 1; Genre.mk 2 (u "Вестерн") 1],
        inr (EditMessageText (u "Жанр Вестерн добавлен!"))).
Proof.
  intros sender d0. split.
  - vm_compute. intros H.
    repeat (destruct H as [H|H]; [discriminate H|]). exact H.
  - assert (Eadded : u "Жанр " ++ u "Вестерн" ++ u " добавлен!"
                     = u "Жанр Вестерн добавлен!") by (vm_compute; reflexivity).
    pose proof (proj1 (genre_callback_accepts_any_label
                         GigaChat.utcfromtimestamp_exact
                         (mkWorld no_faults no_faults 0
                            GigaChat.Transport_failure
                            GigaChat.Transport_failure)
                         (GigaChat.init [] 0) sender
                         (User.mk 1 42 (Some (u "ann"))) (u "Вестерн") d0
                         eq_refl eq_refl eq_refl eq_refl)) as H.
    rewrite Eadded in H. exact H.
Defined.

Lemma set_genres_then_select_witness :
  let sender := mkTgUser 42 (Some (u "ann")) in
  let d0 := mkDB [User.mk 1 42 (Some (u "ann"))] [Genre.mk 1 (u "Драма") 1] in
  let d1 := fst (set_genres_command no_faults no_faults (Some sender) d0) in
  let d2 := fst (genre_callback no_faults no_faults (Some sender)
                   (u "genre_" ++ u "Комедия") d1) in
  let d3 := fst (genre_callback no_faults no_faults (Some sender)
                   (u "genre_" ++ u "Ужасы") d2) in
  labels_of 1 d1 = [] /\ labels_of 1 d3 = [u "Комедия"; u "Ужасы"].
Proof.
  intros sender d0 d1 d2 d3.
  pose proof (set_genres_then_select sender (User.mk 1 42 (Some (u "ann")))
                (u "Комедия") (u "Ужасы") d0 eq_refl) as H.
  cbv zeta in H. destruct H as [Hcleared [Hstored _]].
  split; [exact Hcleared | exact Hstored].
Defined.

Lemma get_genres_lists_witness :
  let d0 := mkDB [User.mk 1 42 (Some (u "ann")); User.mk 2 43 None]
                 [Genre.mk 1 (u "Драма") 1; Genre.mk 2 (u "Ужасы") 1] in
  get_genres no_faults no_faults (Some (mkTgUser 42 (Some (u "ann")))) d0
  = (d0, ReplyText
           (u "Выбранные жанры:" ++ [10] ++ u "- Драма" ++ [10] ++ u "- Ужасы")
           NoMarkup)
  /\ get_genres no_faults no_faults (Some (mkTgUser 43 None)) d0
     = (d0, ReplyText (u "У вас пока нет выбранных жанров.") NoMarkup).
Proof.
  intros d0.
  pose proof (proj1 (get_genres_lists_in_insertion_order
                       (mkTgUser 42 (Some (u "ann")))
                       (User.mk 1 42 (Some (u "ann"))) d0 eq_refl)) as Hann.
  pose proof (proj1 (get_genres_lists_in_insertion_order
                       (mkTgUser 43 None) (User.mk 2 43 None) d0 eq_refl))
    as Hother.
  assert (Hl : labels_of (User.id (User.mk 1 42 (Some (u "ann")))) d0
               = [u "Драма"; u "Ужасы"]) by reflexivity.
  assert (Hnone : labels_of (User.id (User.mk 2 43 None)) d0 = [])
    by reflexivity.
  assert (Etext : u "Выбранные жанры:" ++ [10] ++
                  join [10] (map (fun name => u "- " ++ name)
                               [u "Драма"; u "Ужасы"])
                  = u "Выбранные жанры:" ++ [10] ++ u "- Драма" ++ [10] ++
                    u "- Ужасы") by (vm_compute; reflexivity).
  rewrite Hl in Hann. rewrite Hnone in Hother.
  cbv beta iota in Hann, Hother. rewrite Etext in Hann.
  split; [exact Hann | exact Hother].
Defined.

Lemma first_press_of_new_user_adds_nothing_witness :
  let sender := mkTgUser 42 None in
  genre_callback no_faults no_faults (Some sender)
    (u "genre_" ++ u "Комедия") empty
  = (mkDB [User.mk 1 42 None] [],
     inr (EditMessageText (u "Произошла ошибка при добавлении жанра.")))
  /\ genre_callback no_faults no_faults (Some sender)
       (u "genre_" ++ u "Комедия") (mkDB [User.mk 1 42 None] [])
     = (mkDB [User.mk 1 42 None] [Genre.mk 1 (u "Комедия") 1],
        inr (EditMessageText (u "Жанр Комедия добавлен!"))).
Proof.
  intros sender.
  assert (Eadded : u "Жанр " ++ u "Комедия" ++ u " добавлен!"
                   = u "Жанр Комедия добавлен!") by (vm_compute; reflexivity).
  pose proof (first_press_of_new_user_adds_nothing sender (u "Комедия") empty
                eq_refl) as H.
  cbv zeta in H. destruct H as [Hfirst [_ Hagain]].
  specialize (Hagain eq_refl). rewrite Hfirst in Hagain. cbn [fst] in Hagain.
  rewrite Eadded in Hagain.
  split; [exact Hfirst | exact Hagain].
Defined.

Lemma first_press_stores_no_label_witness :
  dispatch GigaChat.utcfromtimestamp_exact
    (mkWorld no_faults no_faults 0 GigaChat.Transport_failure
       GigaChat.Transport_failure)
    (mkUpdate (Some (mkTgUser 42 None))
       (CallbackQuery (u "genre_" ++ u "Драма")))
    (mkState empty (GigaChat.init [] 0))
  = mkHandled (mkState (mkDB [User.mk 1 42 None] []) (GigaChat.init [] 0)) []
      (Some (inr (EditMessageText
                    (u "Произошла ошибка при добавлении жанра.")))).
Proof.
  exact (first_press_stores_no_label GigaChat.utcfromtimestamp_exact
           (mkWorld no_faults no_faults 0 GigaChat.Transport_failure
              GigaChat.Transport_failure)
           (mkTgUser 42 None) (u "Драма")
           (mkState empty (GigaChat.init [] 0)) eq_refl eq_refl).
Defined.

Lemma first_getgenres_answers_error_witness :
  let h := dispatch GigaChat.utcfromtimestamp_exact
             (mkWorld no_faults no_faults 0 GigaChat.Transport_failure
                GigaChat.Transport_failure)
             (mkUpdate (Some (mkTgUser 42 None)) (Command (u "getgenres")))
             (mkState empty (GigaChat.init [] 0)) in
  h = mkHandled (mkState (mkDB [User.mk 1 42 None] []) (GigaChat.init [] 0)) []
        (Some (inr (ReplyText (u "Произошла ошибка при получении жанров.")
                      NoMarkup)))
  /\ output h
     <> Some (inr (ReplyText (u "У вас пока нет выбранных жанров.") NoMarkup)).
Proof.
  exact (first_getgenres_answers_error GigaChat.utcfromtimestamp_exact
           (mkWorld no_faults no_faults 0 GigaChat.Transport_failure
              GigaChat.Transport_failure)
           (mkTgUser 42 None)
           (mkState empty (GigaChat.init [] 0)) eq_refl eq_refl).
Defined.

End BotSpec.

(* ------------------------------------------------------------------ *)
(** ** More on the GigaChat client *)

Module GigaChatMore.
Import Py GigaChat.
Local Open Scope api_scope.

Ltac run_api :=
  cbv beta iota zeta delta
    [request_access_token get_access_token generate_recipe
     try_except bind lift emit raise ret read_self
     set_access_token set_token_expiry post
     out_self out_trace out_result].

Ltac split_on_answers :=
  repeat match goal with
    | |- context [match ?answer with _ => _ end] =>
        lazymatch answer with
        | context [match _ with _ => _ end] => fail
        | _ => destruct answer eqn:?; cbv beta iota zeta
        end
    end.

(** *** str.strip *)

Lemma lstrip_head (s : pystr) :
  match lstrip s with
  | [] => True
  | c :: _ => py_isspace c = false
  end.
Proof.
  induction s as [|c r IH]; cbn; [exact I|].
  destruct (py_isspace c) eqn:E; [exact IH | exact E].
Qed.

Lemma lstrip_suffix (s : pystr) : exists dropped, s = dropped ++ lstrip s.
Proof.
  induction s as [|c r [dropped IH]]; cbn; [exists []; reflexivity|].
  destruct (py_isspace c).
  - exists (c :: dropped). cbn. rewrite <- IH. reflexivity.
  - exists []. reflexivity.
Qed.

Lemma strip_is_trimmed (s : pystr) : is_trimmed (strip s) = true.
Proof.
  unfold is_trimmed, strip. rewrite rev_involutive.
  pose proof (lstrip_head (rev (lstrip s))) as Hend.
  pose proof (lstrip_head s) as Hstart.
  destruct (lstrip_suffix (rev (lstrip s))) as [dropped Hsuf].
  destruct (lstrip (rev (lstrip s))) as [|c b]; [reflexivity|].
  rewrite Hend, andb_true_r. cbn [negb].
  apply (f_equal (@rev Z)) in Hsuf.
  rewrite rev_involutive, rev_app_distr in Hsuf.
  destruct (rev (c :: b)) as [|c' b'] eqn:Hrev; [reflexivity|].
  rewrite Hsuf in Hstart. cbn in Hstart. rewrite Hstart. reflexivity.
Qed.

Section WithClock.

Variable conv : json -> exn + Z.

(** *** get_access_token *)

Lemma request_access_token_returns (reply : http_outcome) (self : GigaChatAPI) :
  out_result (request_access_token conv reply self) = inr tt ->
  exists code doc tok raw expiry,
    reply = Response code (Some doc)
    /\ ~ (400 <= code < 600)
    /\ getitem_key doc (u "access_token") = inr tok
    /\ getitem_key doc (u "expires_at") = inr raw
    /\ conv raw = inr expiry
    /\ out_self (request_access_token conv reply self)
       = mkAPI (authorization_key self) tok expiry.
Proof.
  run_api.
  destruct reply as [|code body]; [discriminate|]. cbv beta iota.
  destruct (raise_for_status (code, body)) as [e1|[]] eqn:Hstatus;
    [destruct (is_RequestException e1); discriminate|].
  apply GigaChatSpec.raise_for_status_passes in Hstatus.
  destruct body as [doc|]; cbn [response_json snd]; [|discriminate].
  destruct (getitem_key doc (u "access_token")) as [e2|tok] eqn:Htok;
    [destruct (is_RequestException e2); discriminate|].
  destruct (getitem_key doc (u "expires_at")) as [e3|raw] eqn:Hraw;
    [destruct (is_RequestException e3); discriminate|].
  destruct (conv raw) as [e4|expiry] eqn:Hconv;
    [destruct (is_RequestException e4); discriminate|].
  intros _. exists code, doc, tok, raw, expiry. repeat split; assumption.
Qed.

(** X1.  When a refresh is due, [get_access_token] hands out a token only
    if the exchange of this very call went through: the answer passed
    [raise_for_status], its document had both fields, the expiry could
    be converted; the token returned is the one of the answer and both
    fields of the cell are the new ones.  The token held before is
    never returned in its place. *)
Theorem get_access_token_due_needs_exchange (self : GigaChatAPI) (now : Z)
    (reply : http_outcome) (tok : json) :
  truthy (access_token self) = false \/ token_expiry self <= now ->
  out_result (get_access_token conv now reply self) = inr tok ->
  exists code doc raw expiry,
    reply = Response code (Some doc)
    /\ ~ (400 <= code < 600)
    /\ getitem_key doc (u "access_token") = inr tok
    /\ getitem_key doc (u "expires_at") = inr raw
    /\ conv raw = inr expiry
    /\ out_self (get_access_token conv now reply self)
       = mkAPI (authorization_key self) tok expiry.
Proof.
  intros Hdue. apply GigaChatSpec.needs_refresh_true in Hdue.
  rewrite (GigaChatSpec.get_access_token_stale conv self now reply Hdue).
  pose proof (request_access_token_returns reply self) as Hret.
  destruct (request_access_token conv reply self) as [s1 t1 [e|[]]];
    cbn [out_result out_self] in *; [discriminate|].
  intros Htok. inversion Htok; subst tok.
  destruct (Hret eq_refl) as (code & doc & tok & raw & expiry & H1 & H2 & H3 & H4 & H5 & H6).
  subst s1. cbn [access_token].
  exists code, doc, raw, expiry. repeat split; assumption.
Qed.

(** X2.  An exchange that fails on a cell whose expiry has passed leaves
    the cell due for a refresh at every later instant: the next call
    goes to the endpoint again, whatever the failed answer contained. *)
Theorem failed_refresh_stays_due (self : GigaChatAPI) (now later : Z)
    (reply : http_outcome) (e : exn) :
  token_expiry self <= now ->
  now <= later ->
  out_result (get_access_token conv now reply self) = inl e ->
  needs_refresh (out_self (get_access_token conv now reply self)) later = true.
Proof.
  intros Hexpired Hlater.
  assert (Hdue : needs_refresh self now = true)
    by (apply GigaChatSpec.needs_refresh_true; right; exact Hexpired).
  rewrite (GigaChatSpec.get_access_token_stale conv self now reply Hdue).
  pose proof (GigaChatSpec.request_access_token_failure conv reply self) as Hfail.
  destruct (request_access_token conv reply self) as [s1 t1 [e1|[]]];
    cbn [out_result out_self] in *; [|discriminate].
  intros _. destruct (Hfail e1 eq_refl) as [_ [Hexp _]].
  apply GigaChatSpec.needs_refresh_true. right. rewrite Hexp. lia.
Qed.

(** *** generate_recipe *)

Lemma request_access_token_no_completion_post (reply : http_outcome)
    (self : GigaChatAPI) :
  completion_posts (out_trace (request_access_token conv reply self)) = [].
Proof. run_api. split_on_answers; reflexivity. Qed.

Lemma get_access_token_no_completion_post (now : Z) (reply : http_outcome)
    (self : GigaChatAPI) :
  completion_posts (out_trace (get_access_token conv now reply self)) = [].
Proof.
  destruct (needs_refresh self now) eqn:H.
  - rewrite (GigaChatSpec.get_access_token_stale conv self now reply H).
    pose proof (request_access_token_no_completion_post reply self) as Hnone.
    destruct (request_access_token conv reply self) as [s1 t1 [e|[]]];
      exact Hnone.
  - rewrite (GigaChatSpec.get_access_token_cached conv self now reply H).
    reflexivity.
Qed.

(** X3.  A failure to obtain the token leaves [generate_recipe] as it
    left [get_access_token]: the same exception, the same fields, the
    same effects.  It is raised before the [try], so no fallback text
    stands in for it and the completion endpoint is not called. *)
Theorem generate_recipe_token_failure (msg : pystr) (now : Z)
    (token_reply completion_reply : http_outcome) (self : GigaChatAPI)
    (e : exn) :
  out_result (get_access_token conv now token_reply self) = inl e ->
  let g := get_access_token conv now token_reply self in
  let o := generate_recipe conv msg now token_reply completion_reply self in
  out_result o = inl e /\ out_self o = out_self g /\ out_trace o = out_trace g.
Proof.
  intros Hfail g o. subst g o. unfold generate_recipe.
  match goal with |- context [bind _ ?k self] => set (completion := k) end.
  unfold bind.
  destruct (get_access_token conv now token_reply self) as [s1 t1 r1].
  cbn in Hfail. subst r1. repeat split.
Qed.

Lemma generate_recipe_posts (msg : pystr) (now : Z)
    (token_reply completion_reply : http_outcome) (self : GigaChatAPI) :
  completion_posts
    (out_trace (generate_recipe conv msg now token_reply completion_reply self))
  = match out_result (get_access_token conv now token_reply self) with
    | inr bearer => [CompletionPost bearer msg]
    | inl _ => []
    end.
Proof.
  pose proof (get_access_token_no_completion_post now token_reply self) as Hnone.
  unfold generate_recipe.
  match goal with |- context [bind _ ?k self] => set (completion := k) end.
  unfold bind.
  destruct (get_access_token conv now token_reply self) as [s1 t1 [e|bearer]];
    cbn [out_trace out_result] in *; [exact Hnone|].
  subst completion.
  cbv beta iota zeta delta
    [try_except bind lift emit raise ret post out_self out_trace out_result].
  unfold completion_posts in *.
  split_on_answers; cbn [out_trace];
    rewrite ?filter_app, Hnone; reflexivity.
Qed.

(** X4.  [generate_recipe] calls the completion endpoint once when the
    token is in hand and not at all otherwise; the call carries the
    token [get_access_token] returned and the caller's message as it
    was given. *)
Theorem generate_recipe_completion_posts (msg : pystr) (now : Z)
    (token_reply completion_reply : http_outcome) (self : GigaChatAPI) :
  completion_posts
    (out_trace (generate_recipe conv msg now token_reply completion_reply self))
  = match out_result (get_access_token conv now token_reply self) with
    | inr bearer => [CompletionPost bearer msg]
    | inl _ => []
    end.
Proof.
  exact (generate_recipe_posts msg now token_reply completion_reply self).
Qed.

(** X5.  Whatever the endpoints answer, a text returned by
    [generate_recipe] has no white space at its start or at its end. *)
Theorem generate_recipe_returns_trimmed (msg : pystr) (now : Z)
    (token_reply completion_reply : http_outcome) (self : GigaChatAPI)
    (text : pystr) :
  out_result (generate_recipe conv msg now token_reply completion_reply self)
  = inr text ->
  is_trimmed text = true.
Proof.
  unfold generate_recipe.
  match goal with |- context [bind _ ?k self] => set (completion := k) end.
  unfold bind.
  destruct (get_access_token conv now token_reply self) as [s1 t1 [e|bearer]];
    cbn [out_result]; [discriminate|].
  subst completion.
  cbv beta iota zeta delta
    [try_except bind lift emit raise ret post out_self out_trace out_result].
  assert (Hfallback : is_trimmed FALLBACK = true) by (vm_compute; reflexivity).
  split_on_answers; cbn [out_result]; intros H; inversion H; subst;
    try exact Hfallback.
  match goal with
  | Hs : call_strip ?content = inr _ |- _ =>
      destruct content; inversion Hs; apply strip_is_trimmed
  end.
Qed.

(** X6.  An answer of the completion endpoint without a JSON body gives
    the fixed reply, whatever its status. *)
Theorem generate_recipe_not_json (msg : pystr) (now : Z)
    (token_reply : http_outcome) (code : Z) (self : GigaChatAPI)
    (bearer : json) :
  out_result (get_access_token conv now token_reply self) = inr bearer ->
  out_result (generate_recipe conv msg now token_reply (Response code None) self)
  = inr FALLBACK.
Proof.
  intros Htok. unfold generate_recipe.
  match goal with |- context [bind _ ?k self] => set (completion := k) end.
  unfold bind.
  destruct (get_access_token conv now token_reply self) as [s1 t1 r1].
  cbn in Htok. subst r1 completion.
  cbv beta iota zeta delta
    [try_except bind lift emit raise ret post out_result raise_for_status
     response_json fst snd].
  destruct ((400 <=? code) && (code <? 600)); reflexivity.
Qed.

End WithClock.

(** The theorems above on concrete answers. *)

Lemma get_access_token_due_needs_exchange_witness :
  exists code doc raw expiry,
    Response 200
      (Some (JObj [(u "access_token", JStr (u "t1"));
                   (u "expires_at", JInt 1000)]))
    = Response code (Some doc)
    /\ ~ (400 <= code < 600)
    /\ getitem_key doc (u "access_token") = inr (JStr (u "t1"))
    /\ getitem_key doc (u "expires_at") = inr raw
    /\ utcfromtimestamp_exact raw = inr expiry
    /\ out_self
         (get_access_token utcfromtimestamp_exact 10
            (Response 200
               (Some (JObj [(u "access_token", JStr (u "t1"));
                            (u "expires_at", JInt 1000)])))
            (init (u "key") 0))
       = mkAPI (authorization_key (init (u "key") 0)) (JStr (u "t1")) expiry.
Proof.
  apply (get_access_token_due_needs_exchange utcfromtimestamp_exact
           (init (u "key") 0) 10).
  - left; reflexivity.
  - reflexivity.
Defined.

Lemma failed_refresh_stays_due_witness :
  needs_refresh
    (out_self
       (get_access_token utcfromtimestamp_exact 10
          (Response 200 (Some (JObj [(u "access_token", JStr (u "abc"))])))
          (init (u "key") 0)))
    25 = true.
Proof.
  apply (failed_refresh_stays_due utcfromtimestamp_exact (init (u "key") 0)
           10 25 _ KeyError).
  - cbn; lia.
  - lia.
  - reflexivity.
Defined.

Lemma generate_recipe_token_failure_witness :
  out_result
    (generate_recipe utcfromtimestamp_exact (u "q") 10 (Response 503 None)
       (Response 200 None) (init (u "key") 0))
  = inl (HTTPError 503).
Proof.
  exact (proj1 (generate_recipe_token_failure utcfromtimestamp_exact (u "q") 10
                  (Response 503 None) (Response 200 None) (init (u "key") 0)
                  (HTTPError 503) eq_refl)).
Defined.

Lemma generate_recipe_returns_trimmed_witness :
  is_trimmed (u "Amelie") = true.
Proof.
  apply (generate_recipe_returns_trimmed utcfromtimestamp_exact (u "q") 5
           Transport_failure
           (Response 200
              (Some (JObj [(u "choices",
                      JArr [JObj [(u "message",
                             JObj [(u "content", JStr (u "  Amelie "))])]])])))
           (mkAPI (u "key") (JStr (u "t1")) 9)).
  vm_compute. reflexivity.
Defined.

Lemma generate_recipe_not_json_witness :
  out_result
    (generate_recipe utcfromtimestamp_exact (u "q") 5 Transport_failure
       (Response 200 None) (mkAPI (u "key") (JStr (u "t1")) 9))
  = inr FALLBACK.
Proof.
  apply (generate_recipe_not_json utcfromtimestamp_exact (u "q") 5
           Transport_failure 200 (mkAPI (u "key") (JStr (u "t1")) 9)
           (JStr (u "t1"))).
  reflexivity.
Defined.

End GigaChatMore.

(* ------------------------------------------------------------------ *)
(** ** More on the handlers *)

Module BotMore.
Import Py Store Bot.

(** *** What a handler can do to the table of users *)

Lemma find_app_some {A} (p : A -> bool) (l added : list A) (x : A) :
  find p l = Some x -> find p (l ++ added) = Some x.
Proof.
  induction l as [|a l IH]; cbn; [discriminate|].
  destruct (p a); [tauto | exact IH].
Qed.

Lemma starts_with_split (prefix s : pystr) :
  starts_with prefix s = true -> exists rest, s = prefix ++ rest.
Proof.
  revert s. induction prefix as [|p prefix IH]; intros s H.
  - exists s. reflexivity.
  - destruct s as [|c s]; [discriminate|]. cbn in H.
    apply andb_true_iff in H. destruct H as [Hc Hrest].
    apply Z.eqb_eq in Hc. subst c.
    destruct (IH s Hrest) as [rest ->]. exists rest. reflexivity.
Qed.

Lemma get_or_create_user_tables (f : session_faults)
    (sender : option tg_user) (d : DB) :
  genres (fst (get_or_create_user f sender d)) = genres d
  /\ exists added,
       users (fst (get_or_create_user f sender d)) = users d ++ added
       /\ (List.length added <= 1)%nat.
Proof.
  unfold get_or_create_user.
  assert (Hsame : genres d = genres d /\
                  exists added, users d = users d ++ added
                                /\ (List.length added <= 1)%nat)
    by (split; [reflexivity | exists []; rewrite app_nil_r; cbn; split; [reflexivity | lia]]).
  destruct sender as [sender|]; [|exact Hsame].
  destruct (stmt_raises f); [exact Hsame|].
  destruct (query_user_first (tg_id sender) d); [exact Hsame|].
  destruct (flush_raises f); [exact Hsame|].
  destruct (commit_raises f); [exact Hsame|].
  cbn. split; [reflexivity|]. eexists. split; [reflexivity | cbn; lia].
Qed.

Lemma commit_pending_tables (f : session_faults) (sender : option tg_user)
    (d d1 : DB) (user : user_object) :
  get_or_create_user f sender d = (d1, Some user) ->
  genres (commit_pending user d1) = genres d
  /\ exists added,
       users (commit_pending user d1) = users d ++ added
       /\ (List.length added <= 1)%nat.
Proof.
  assert (Hsame : genres d = genres d /\
                  exists added, users d = users d ++ added
                                /\ (List.length added <= 1)%nat)
    by (split; [reflexivity | exists []; rewrite app_nil_r; cbn; split; [reflexivity | lia]]).
  unfold get_or_create_user.
  destruct sender as [sender|]; [|discriminate].
  destruct (stmt_raises f); [discriminate|].
  destruct (query_user_first (tg_id sender) d).
  { intros H; inversion H; subst. exact Hsame. }
  destruct (flush_raises f).
  { intros H; inversion H; subst. exact Hsame. }
  destruct (commit_raises f); intros H; inversion H; subst;
    cbn [commit_pending insert_user fst users genres];
    (split; [reflexivity|]); eexists; (split; [reflexivity | cbn; lia]).
Qed.

Lemma set_genres_command_users (fu fh : session_faults)
    (sender : option tg_user) (d : DB) :
  exists added,
    users (fst (set_genres_command fu fh sender d)) = users d ++ added
    /\ (List.length added <= 1)%nat.
Proof.
  unfold set_genres_command.
  destruct (get_or_create_user_tables fu sender d) as [_ Hfirst].
  destruct (get_or_create_user fu sender d) as [d1 [user|]] eqn:E;
    cbn [fst] in *; [|exact Hfirst].
  destruct (attr_id user); [exact Hfirst|].
  destruct (stmt_raises fh || commit_raises fh); [exact Hfirst|].
  cbn [delete_genres users].
  exact (proj2 (commit_pending_tables fu sender d d1 user E)).
Qed.

Lemma genre_callback_users (fu fh : session_faults)
    (sender : option tg_user) (data : pystr) (d : DB) :
  exists added,
    users (fst (genre_callback fu fh sender data d)) = users d ++ added
    /\ (List.length added <= 1)%nat.
Proof.
  assert (Hsame : exists added, users d = users d ++ added
                                /\ (List.length added <= 1)%nat)
    by (exists []; rewrite app_nil_r; cbn; split; [reflexivity | lia]).
  unfold genre_callback.
  destruct (split_underscore_1 data) as [|? [|X ?]]; try exact Hsame.
  destruct (get_or_create_user_tables fu sender d) as [_ Hfirst].
  destruct (get_or_create_user fu sender d) as [d1 [user|]] eqn:E;
    cbn [fst] in *; [|exact Hfirst].
  unfold record_genre.
  destruct (attr_id user); [exact Hfirst|].
  destruct (stmt_raises fh); [exact Hfirst|].
  destruct (query_genre_first _ X d1); [exact Hfirst|].
  destruct o as [uid|]; [|exact Hfirst].
  destruct (flush_raises fh || commit_raises fh); [exact Hfirst|].
  cbn [fst insert_genre users].
  exact (proj2 (commit_pending_tables fu sender d d1 user E)).
Qed.

Section WithClock.

Variable conv : json -> exn + Z.

(** The tables after a command: as before, as [get_or_create_user]
    leaves them, or as [set_genres_command] leaves them. *)
Lemma dispatch_command_db (w : world) (sender : option tg_user)
    (name : pystr) (s : state) :
  db (after (dispatch_command conv w sender name s)) = db s
  \/ db (after (dispatch_command conv w sender name s))
     = fst (get_or_create_user (user_session w) sender (db s))
  \/ (py_lower name = u "setgenres"
      /\ db (after (dispatch_command conv w sender name s))
         = fst (set_genres_command (user_session w) (handler_session w)
                  sender (db s))).
Proof.
  unfold dispatch_command, only_db.
  destruct (pystr_eqb _ (u "start")).
  { right; left. unfold start.
    destruct (get_or_create_user _ _ _) as [d1 [user|]]; reflexivity. }
  destruct (pystr_eqb _ (u "help")); [left; reflexivity|].
  destruct (pystr_eqb _ (u "setgenres")) eqn:E.
  { right; right. split; [apply BotSpec.pystr_eqb_eq; exact E | reflexivity]. }
  destruct (pystr_eqb _ (u "getgenres")).
  { right; left. unfold get_genres.
    destruct (get_or_create_user _ _ _) as [d1 [user|]]; [|reflexivity].
    destruct (attr_id user); [reflexivity|].
    destruct (stmt_raises _); [reflexivity|].
    destruct (query_genres_all _ _); reflexivity. }
  destruct (pystr_eqb _ (u "getfilm")); [|left; reflexivity].
  right; left. unfold get_film.
  destruct (get_or_create_user _ _ _) as [d1 [user|]]; [|reflexivity].
  destruct (attr_id user); [reflexivity|].
  destruct (stmt_raises _); reflexivity.
Qed.

(** The same for any update; a press moves the tables as
    [genre_callback] does. *)
Lemma dispatch_db (w : world) (upd : Update) (s : state) :
  db (after (dispatch conv w upd s)) = db s
  \/ db (after (dispatch conv w upd s))
     = fst (get_or_create_user (user_session w) (effective_user upd) (db s))
  \/ ((exists name,
         (update_content upd = Command name
          \/ update_content upd = EditedCommand name)
         /\ py_lower name = u "setgenres")
      /\ db (after (dispatch conv w upd s))
         = fst (set_genres_command (user_session w) (handler_session w)
                  (effective_user upd) (db s)))
  \/ (exists X,
        update_content upd = CallbackQuery (u "genre_" ++ X)
        /\ db (after (dispatch conv w upd s))
           = fst (genre_callback (user_session w) (handler_session w)
                    (effective_user upd) (u "genre_" ++ X) (db s))).
Proof.
  unfold dispatch.
  destruct (update_content upd) as [name|text|data|name|text].
  - destruct (dispatch_command_db w (effective_user upd) name s)
      as [H|[H|[Hname H]]]; [tauto | tauto |].
    right; right; left. split; [exists name; tauto | exact H].
  - left; reflexivity.
  - destruct (starts_with (u "genre_") data) eqn:E; [|left; reflexivity].
    apply starts_with_split in E. destruct E as [X ->].
    right; right; right. exists X. split; [reflexivity|].
    destruct (genre_callback _ _ _ _ _) as [d1 out]. reflexivity.
  - unfold without_message. cbn [after].
    destruct (dispatch_command_db w (effective_user upd) name s)
      as [H|[H|[Hname H]]]; [tauto | tauto |].
    right; right; left. split; [exists name; tauto | exact H].
  - left; reflexivity.
Qed.

Lemma dispatch_users (w : world) (upd : Update) (s : state) :
  exists added,
    users (db (after (dispatch conv w upd s))) = users (db s) ++ added
    /\ (List.length added <= 1)%nat.
Proof.
  destruct (dispatch_db w upd s) as [H|[H|[[_ H]|[X [_ H]]]]]; rewrite H.
  - exists []. rewrite app_nil_r. cbn. split; [reflexivity | lia].
  - apply get_or_create_user_tables.
  - apply set_genres_command_users.
  - apply genre_callback_users.
Qed.

Lemma run_users (inputs : list (world * Update)) (s : state) :
  exists added,
    users (db (run conv inputs s)) = users (db s) ++ added
    /\ (List.length added <= List.length inputs)%nat.
Proof.
  revert s. induction inputs as [|[w upd] rest IH]; intros s; cbn.
  - exists []. rewrite app_nil_r. split; [reflexivity | cbn; lia].
  - destruct (IH (after (dispatch conv w upd s))) as [later [Hlater Hn]].
    destruct (dispatch_users w upd s) as [added [Hadded Hone]].
    exists (added ++ later). rewrite Hlater, Hadded, app_assoc, length_app.
    split; [reflexivity | lia].
Qed.

(** X7.  No handler deletes or rewrites a row of [users]: after any
    sequence of updates, with any failures, the table is the one before
    followed by the rows added since, at most one per update. *)
Theorem users_append_only (inputs : list (world * Update)) (s : state) :
  exists added,
    users (db (run conv inputs s)) = users (db s) ++ added
    /\ (List.length added <= List.length inputs)%nat.
Proof. exact (run_users inputs s). Qed.

(** X8.  Once a Telegram id has a row, lookups for it return that same
    row (same key, same username) after any sequence of updates: the
    username stored at the first contact is never refreshed. *)
Theorem stored_user_is_stable (inputs : list (world * Update)) (s : state)
    (tgid : Z) (row : User.t) :
  query_user_first tgid (db s) = Some row ->
  query_user_first tgid (db (run conv inputs s)) = Some row.
Proof.
  intros Hrow. destruct (run_users inputs s) as [added [Hadded _]].
  unfold query_user_first in *. rewrite Hadded.
  apply find_app_some. exact Hrow.
Qed.

(** *** What a handler can do to the table of genres *)

Lemma genre_callback_genres (fu fh : session_faults)
    (sender : option tg_user) (data : pystr) (d : DB) :
  genres (fst (genre_callback fu fh sender data d)) = genres d
  \/ exists before chosen rest uid,
       split_underscore_1 data = before :: chosen :: rest
       /\ genres (fst (genre_callback fu fh sender data d))
          = genres d ++ [Genre.mk (next_genre_id d) chosen uid].
Proof.
  unfold genre_callback.
  destruct (split_underscore_1 data) as [|before [|chosen rest]];
    try (left; reflexivity).
  destruct (get_or_create_user_tables fu sender d) as [Hg _].
  destruct (get_or_create_user fu sender d) as [d1 [user|]] eqn:E;
    cbn [fst] in Hg; [|left; exact Hg].
  destruct (commit_pending_tables fu sender d d1 user E) as [Hg' _].
  unfold record_genre.
  destruct (attr_id user) as [e|key]; [left; exact Hg|].
  destruct (stmt_raises fh); [left; exact Hg|].
  destruct (query_genre_first key chosen d1); [left; exact Hg|].
  destruct key as [uid|]; [|left; exact Hg].
  destruct (flush_raises fh || commit_raises fh); [left; exact Hg|].
  right. exists before, chosen, rest, uid. split; [reflexivity|].
  cbn [fst insert_genre genres]. unfold next_genre_id.
  rewrite Hg'. reflexivity.
Qed.

(** X9.  A press adds at most one row to [genres], at the end of the
    table and with the label parsed from the payload; it never removes
    or changes a row, whoever presses and whatever fails. *)
Theorem genre_callback_adds_at_most_one_row (fu fh : session_faults)
    (sender : option tg_user) (data : pystr) (d : DB) :
  genres (fst (genre_callback fu fh sender data d)) = genres d
  \/ exists before chosen rest uid,
       split_underscore_1 data = before :: chosen :: rest
       /\ genres (fst (genre_callback fu fh sender data d))
          = genres d ++ [Genre.mk (next_genre_id d) chosen uid].
Proof. exact (genre_callback_genres fu fh sender data d). Qed.

(** [get_or_create_user] writes nothing when there is no sender or the
    sender has a row. *)
Lemma get_or_create_user_known (f : session_faults)
    (sender : option tg_user) (d : DB) :
  (forall known, sender = Some known ->
     query_user_first (tg_id known) d <> None) ->
  fst (get_or_create_user f sender d) = d.
Proof.
  intros Hknown. unfold get_or_create_user.
  destruct sender as [known|]; [|reflexivity].
  specialize (Hknown known eq_refl).
  destruct (stmt_raises f); [reflexivity|].
  destruct (query_user_first (tg_id known) d); [reflexivity|].
  contradiction.
Qed.

(** X10.  An update from a sender who has a row, or without a sender,
    leaves both tables as they were unless it is a command (edited or
    not) whose lower-cased name is "setgenres" or a press whose payload
    starts with "genre_": no other handler writes for such a sender,
    whatever fails. *)
Theorem genres_change_only_by_setgenres_or_press (w : world) (upd : Update)
    (s : state) :
  (forall known, effective_user upd = Some known ->
     query_user_first (tg_id known) (db s) <> None) ->
  db (after (dispatch conv w upd s)) = db s
  \/ (exists name,
        (update_content upd = Command name
         \/ update_content upd = EditedCommand name)
        /\ py_lower name = u "setgenres")
  \/ exists X, update_content upd = CallbackQuery (u "genre_" ++ X).
Proof.
  intros Hknown.
  destruct (dispatch_db w upd s) as [H|[H|[[Hname _]|[X [HX _]]]]].
  - left. exact H.
  - left. rewrite H. apply get_or_create_user_known. exact Hknown.
  - right; left. exact Hname.
  - right; right. exists X. exact HX.
Qed.

Lemma dispatch_command_raises (w : world) (sender : option tg_user)
    (name : pystr) (s : state) (e : exn) :
  output (dispatch_command conv w sender name s) <> Some (inl e).
Proof.
  unfold dispatch_command, only_db.
  destruct (pystr_eqb _ (u "start")); [discriminate|].
  destruct (pystr_eqb _ (u "help")); [discriminate|].
  destruct (pystr_eqb _ (u "setgenres")); [discriminate|].
  destruct (pystr_eqb _ (u "getgenres")); [discriminate|].
  destruct (pystr_eqb _ (u "getfilm")); [|discriminate].
  unfold get_film.
  destruct (get_or_create_user _ _ _) as [d1 [user|]]; [|discriminate].
  destruct (attr_id user); [discriminate|].
  destruct (stmt_raises _); discriminate.
Qed.

(** X11.  A handler raises only on an update that has no
    [update.message], an edited command or a text that is edited or
    posted in a channel, and what it raises there is the
    [AttributeError] of [update.message.reply_text].  On commands,
    texts and presses nothing escapes: the only statement outside a
    [try], the subscript of line 263, is reached only with payloads
    that start with "genre_", which always split in two. *)
Theorem dispatch_raises_only_without_message (w : world) (upd : Update)
    (s : state) (e : exn) :
  output (dispatch conv w upd s) = Some (inl e) ->
  e = AttributeError
  /\ ((exists name, update_content upd = EditedCommand name)
      \/ exists text, update_content upd = TextElsewhere text).
Proof.
  unfold dispatch.
  destruct (update_content upd) as [name|text|data|name|text].
  - intros H. exfalso. exact (dispatch_command_raises w _ name s e H).
  - discriminate.
  - destruct (starts_with (u "genre_") data) eqn:E; [|discriminate].
    apply starts_with_split in E. destruct E as [X ->].
    unfold genre_callback. rewrite BotSpec.split_genre_payload.
    destruct (get_or_create_user _ _ _) as [d1 [user|]]; [|discriminate].
    destruct (record_genre _ _ _ _). discriminate.
  - unfold without_message. cbn [output].
    destruct (output (dispatch_command conv w (effective_user upd) name s));
      [|discriminate].
    intros H. inversion H; subst. split; [reflexivity|].
    left. exists name. reflexivity.
  - intros H. inversion H; subst. split; [reflexivity|].
    right. exists text. reflexivity.
Qed.

(** *** A sender who has a row *)

Lemma get_or_create_user_registered_cases (f : session_faults)
    (sender : tg_user) (d : DB) (row : User.t) :
  query_user_first (tg_id sender) d = Some row ->
  get_or_create_user f (Some sender) d = (d, None)
  \/ get_or_create_user f (Some sender) d = (d, Some (Loaded row)).
Proof.
  intros Hrow. unfold get_or_create_user. rewrite Hrow.
  destruct (stmt_raises f); [left | right]; reflexivity.
Qed.

(** X12.  Nothing a sender who has a row sends, whatever fails meanwhile,
    changes the labels stored for another user. *)
Theorem other_users_labels_untouched (w : world) (sender : tg_user)
    (c : content) (s : state) (row : User.t) (other : Z) :
  query_user_first (tg_id sender) (db s) = Some row ->
  other <> User.id row ->
  labels_of other (db (after (dispatch conv w (mkUpdate (Some sender) c) s)))
  = labels_of other (db s).
Proof.
  intros Hrow Hother.
  pose proof (get_or_create_user_registered_cases (user_session w) sender
                (db s) row Hrow) as Hcases.
  destruct (dispatch_db w (mkUpdate (Some sender) c) s)
    as [H|[H|[[_ H]|[X [_ H]]]]]; rewrite H; clear H;
    cbn [effective_user].
  - reflexivity.
  - destruct Hcases as [-> | ->]; reflexivity.
  - unfold set_genres_command. destruct Hcases as [-> | ->]; [reflexivity|].
    cbn [attr_id fst commit_pending].
    destruct (stmt_raises _ || commit_raises _); [reflexivity|].
    apply BotSpec.labels_of_delete_other. exact Hother.
  - unfold genre_callback. rewrite BotSpec.split_genre_payload.
    destruct Hcases as [-> | ->]; [reflexivity|].
    unfold record_genre. cbn [attr_id commit_pending].
    destruct (stmt_raises _); [reflexivity|].
    destruct (query_genre_first _ _ _); [reflexivity|].
    destruct (flush_raises _ || commit_raises _); [reflexivity|].
    cbn [fst]. apply BotSpec.labels_of_insert_other. exact Hother.
Qed.

End WithClock.

(** X13.  When the DELETE of [/setgenres] or its COMMIT fails, the labels
    stay as they were and the sender is not told: the keyboard is sent
    all the same, with the text that asks to choose anew. *)
Theorem set_genres_failed_delete_is_silent (fu fh : session_faults)
    (sender : tg_user) (row : User.t) (d : DB) :
  stmt_raises fu = false ->
  query_user_first (tg_id sender) d = Some row ->
  stmt_raises fh = true \/ commit_raises fh = true ->
  set_genres_command fu fh (Some sender) d
  = (d, ReplyText (u "Выберите жанры заново (можно нажать несколько раз).")
          genre_keyboard).
Proof.
  intros Hfu Hrow Hfail. unfold set_genres_command.
  rewrite (BotSpec.get_or_create_user_registered fu sender d row Hfu Hrow).
  cbn [attr_id].
  assert (stmt_raises fh || commit_raises fh = true) as ->
    by (apply orb_true_iff; exact Hfail).
  reflexivity.
Qed.

(** X14.  Every button of the keyboard [/setgenres] sends leads back to
    its own label: its payload passes the pattern of the dispatcher,
    and a press on it right after [/setgenres], for a sender who has a
    row and without failures, answers "added" for that label and leaves
    it as the sender's only stored label. *)
Theorem press_after_setgenres (sender : tg_user) (row : User.t) (d : DB)
    (text label data : pystr) (rows : list (list (pystr * pystr))) :
  query_user_first (tg_id sender) d = Some row ->
  snd (set_genres_command no_faults no_faults (Some sender) d)
  = ReplyText text (InlineKeyboardMarkup rows) ->
  In [(label, data)] rows ->
  let d1 := fst (set_genres_command no_faults no_faults (Some sender) d) in
  let pressed := genre_callback no_faults no_faults (Some sender) data d1 in
  starts_with (u "genre_") data = true
  /\ snd pressed = inr (EditMessageText (ADDED label))
  /\ labels_of (User.id row) (fst pressed) = [label].
Proof.
  intros Hrow Hsent Hin d1 pressed. subst d1 pressed.
  rewrite (BotSpec.set_genres_command_registered sender row d Hrow) in *.
  cbn [fst snd] in *.
  pose proof (f_equal (fun m => match m with
                                | ReplyText _ (InlineKeyboardMarkup r) => r
                                | _ => []
                                end) Hsent) as Hrows.
  unfold genre_keyboard in Hrows. cbv beta iota in Hrows. subst rows.
  clear Hsent.
  apply in_map_iff in Hin. destruct Hin as (g & Heq & _).
  assert (Hlabel : g = label) by congruence.
  assert (Hdata : u "genre_" ++ g = data) by congruence.
  clear Heq. subst g data.
  split; [apply BotSpec.starts_with_genre_payload|].
  assert (Hrow1 : query_user_first (tg_id sender)
                    (delete_genres (Some (User.id row)) d) = Some row)
    by exact Hrow.
  rewrite (BotSpec.genre_callback_registered sender row label _ Hrow1).
  assert (query_genre_first (Some (User.id row)) label
            (delete_genres (Some (User.id row)) d) = None) as ->.
  { apply BotSpec.query_genre_first_labels.
    rewrite BotSpec.labels_of_delete. intros []. }
  cbn [fst snd]. split; [reflexivity|].
  rewrite BotSpec.labels_of_insert, BotSpec.labels_of_delete. reflexivity.
Qed.

(** X15.  The first update of a new user to [/getgenres] is answered with
    the error text although the row of [users] is created: the object
    just committed is expired and detached, and reading [user.id]
    raises inside the [try].  The same command sent again is answered
    from the tables. *)
Theorem get_genres_first_contact (sender : tg_user) (d : DB) :
  query_user_first (tg_id sender) d = None ->
  let row := User.mk (next_user_id d) (tg_id sender) (tg_username sender) in
  let first := get_genres no_faults no_faults (Some sender) d in
  first = (mkDB (users d ++ [row]) (genres d),
           ReplyText (u "Произошла ошибка при получении жанров.") NoMarkup)
  /\ get_genres no_faults no_faults (Some sender) (fst first)
     = (fst first,
        ReplyText
          match labels_of (next_user_id d) d with
          | [] => NO_GENRES
          | labels => genres_listing labels
          end NoMarkup).
Proof.
  intros Hq row first.
  assert (Hfirst : first = (mkDB (users d ++ [row]) (genres d),
            ReplyText (u "Произошла ошибка при получении жанров.") NoMarkup)).
  { subst first. unfold get_genres, get_or_create_user. rewrite Hq.
    reflexivity. }
  split; [exact Hfirst|]. rewrite Hfirst. cbn [fst].
  assert (Hrow : query_user_first (tg_id sender)
                   (mkDB (users d ++ [row]) (genres d)) = Some row).
  { unfold query_user_first in *. cbn [users].
    clear Hfirst first.
    assert (Hmatch : (User.telegram_id row =? tg_id sender) = true)
      by (subst row; cbn; apply Z.eqb_refl).
    revert Hq. generalize row Hmatch. clear row Hmatch.
    induction (users d) as [|a l IH]; intros row Hmatch Hq; cbn.
    - rewrite Hmatch. reflexivity.
    - cbn in Hq. destruct (User.telegram_id a =? tg_id sender);
        [discriminate | apply IH; assumption]. }
  rewrite (BotSpec.get_genres_registered sender row _ Hrow). reflexivity.
Qed.

(** X16.  In every state reached from tables without duplicates, the
    labels [/getgenres] lists for a user are all different. *)
Theorem listed_labels_are_distinct (conv : json -> exn + Z)
    (inputs : list (world * Update)) (s : state) (uid : Z) :
  users_unique (db s) -> genres_unique (db s) ->
  NoDup (labels_of uid (db (run conv inputs s))).
Proof.
  intros Hu Hg.
  destruct (BotSpec.run_preserves conv inputs s Hu Hg) as [_ Hg'].
  unfold genres_unique in Hg'. unfold labels_of, query_genres_all, owned_by.
  induction (genres (db (run conv inputs s))) as [|g l IH]; cbn;
    [constructor|].
  inversion Hg' as [|? ? Hnew Hrest]; subst.
  destruct (Z.eqb_spec (Genre.user_id g) uid) as [E|E]; cbn; [|auto].
  constructor; [|auto].
  intros Hin. apply Hnew. apply in_map_iff in Hin.
  destruct Hin as (g' & Hname & Hg'in). apply filter_In in Hg'in.
  destruct Hg'in as [Hg'in Hown]. apply Z.eqb_eq in Hown.
  apply in_map_iff. exists g'. split; [|exact Hg'in]. congruence.
Qed.

(** *** Keys *)

Lemma next_id_above (ids : list Z) :
  0 < next_id ids /\ Forall (fun k => k < next_id ids) ids.
Proof.
  unfold next_id. induction ids as [|a l [Hpos Hall]]; cbn [fold_right].
  - split; [lia | constructor].
  - split; [lia|]. constructor; [lia|].
    apply (Forall_impl _ (P := fun k => k < 1 + fold_right Z.max 0 l));
      [intros k Hk; lia | exact Hall].
Qed.

Lemma StronglySorted_snoc (l : list Z) (x : Z) :
  StronglySorted Z.lt l -> Forall (fun k => k < x) l ->
  StronglySorted Z.lt (l ++ [x]).
Proof.
  induction l as [|a l IH]; cbn; intros Hs Hx.
  - constructor; constructor.
  - inversion Hs as [|? ? Hl Ha]; subst. inversion Hx as [|? ? Hax Hlx]; subst.
    constructor; [apply IH; assumption|].
    apply Forall_app. split; [exact Ha | constructor; [exact Hax | constructor]].
Qed.

Lemma keys_increasing_snoc (ids : list Z) :
  keys_increasing ids -> keys_increasing (ids ++ [next_id ids]).
Proof.
  intros [Hs Hp]. destruct (next_id_above ids) as [Hpos Hall]. split.
  - apply StronglySorted_snoc; assumption.
  - apply Forall_app. split; [exact Hp | constructor; [exact Hpos | constructor]].
Qed.

Lemma keys_increasing_filter {A} (key : A -> Z) (keep : A -> bool)
    (table : list A) :
  keys_increasing (map key table) ->
  keys_increasing (map key (filter keep table)).
Proof.
  intros [Hs Hp]. split.
  - induction table as [|r table IH]; cbn in *; [constructor|].
    inversion Hs as [|? ? Hrest Hr]; subst.
    inversion Hp as [|? ? _ Hprest]; subst.
    destruct (keep r); cbn; [|auto]. constructor; [auto|].
    rewrite Forall_forall in *. intros k Hk. apply Hr.
    apply in_map_iff in Hk. destruct Hk as (y & Hy & Hin).
    apply filter_In in Hin. apply in_map_iff. exists y. tauto.
  - rewrite Forall_forall in *. intros k Hk. apply Hp.
    apply in_map_iff in Hk. destruct Hk as (y & Hy & Hin).
    apply filter_In in Hin. apply in_map_iff. exists y. tauto.
Qed.

Lemma keys_increasing_NoDup (ids : list Z) : keys_increasing ids -> NoDup ids.
Proof.
  intros [Hs _]. induction Hs as [|a l Hl IH Ha]; constructor; [|exact IH].
  intros Hin. rewrite Forall_forall in Ha. specialize (Ha a Hin). lia.
Qed.

Lemma store_step_key_order (d d' : DB) :
  store_step d d' -> tables_in_key_order d -> tables_in_key_order d'.
Proof.
  intros Hstep [Hu Hg]. destruct Hstep as [tgid username|uid name|key];
    unfold tables_in_key_order; cbn; split; try assumption.
  - rewrite map_app. apply keys_increasing_snoc. exact Hu.
  - rewrite map_app. apply keys_increasing_snoc. exact Hg.
  - apply keys_increasing_filter. exact Hg.
Qed.

(** *** Every change goes through the three writes *)

Lemma get_or_create_user_steps (f : session_faults)
    (sender : option tg_user) (d : DB) :
  clos_refl_trans DB store_step d (fst (get_or_create_user f sender d)).
Proof.
  unfold get_or_create_user.
  destruct sender as [sender|]; [|apply rt_refl].
  destruct (stmt_raises f); [apply rt_refl|].
  destruct (query_user_first (tg_id sender) d); [apply rt_refl|].
  destruct (flush_raises f); [apply rt_refl|].
  destruct (commit_raises f); [apply rt_refl|].
  apply rt_step. apply (step_insert_user d (tg_id sender) (tg_username sender)).
Qed.

Lemma commit_pending_steps (user : user_object) (d : DB) :
  clos_refl_trans DB store_step d (commit_pending user d).
Proof.
  destruct user as [row|row|[key|] tgid username]; cbn [commit_pending];
    try apply rt_refl.
  apply rt_step. apply step_insert_user.
Qed.

Lemma record_genre_steps (fh : session_faults) (user : user_object)
    (X : pystr) (d : DB) :
  clos_refl_trans DB store_step d (fst (record_genre fh user X d)).
Proof.
  unfold record_genre.
  destruct (attr_id user) as [e|key]; [apply rt_refl|].
  destruct (stmt_raises fh); [apply rt_refl|].
  destruct (query_genre_first key X d); [apply rt_refl|].
  destruct key as [uid|]; [|apply rt_refl].
  destruct (flush_raises fh || commit_raises fh); [apply rt_refl|].
  cbn [fst]. apply rt_trans with (y := commit_pending user d);
    [apply commit_pending_steps|].
  apply rt_step. apply step_insert_genre.
Qed.

Lemma set_genres_command_steps (fu fh : session_faults)
    (sender : option tg_user) (d : DB) :
  clos_refl_trans DB store_step d (fst (set_genres_command fu fh sender d)).
Proof.
  pose proof (get_or_create_user_steps fu sender d) as Hfirst.
  unfold set_genres_command.
  destruct (get_or_create_user fu sender d) as [d1 [user|]];
    cbn [fst] in *; [|exact Hfirst].
  destruct (attr_id user); [exact Hfirst|].
  destruct (stmt_raises fh || commit_raises fh); [exact Hfirst|].
  apply rt_trans with (y := d1); [exact Hfirst|].
  apply rt_trans with (y := commit_pending user d1);
    [apply commit_pending_steps|].
  apply rt_step. apply step_delete_genres.
Qed.

Lemma genre_callback_steps (fu fh : session_faults)
    (sender : option tg_user) (data : pystr) (d : DB) :
  clos_refl_trans DB store_step d (fst (genre_callback fu fh sender data d)).
Proof.
  pose proof (get_or_create_user_steps fu sender d) as Hfirst.
  unfold genre_callback.
  destruct (split_underscore_1 data) as [|? [|X ?]]; try apply rt_refl.
  destruct (get_or_create_user fu sender d) as [d1 [user|]];
    cbn [fst] in *; [|exact Hfirst].
  pose proof (record_genre_steps fh user X d1) as Hsecond.
  destruct (record_genre fh user X d1) as [d2 out]. cbn [fst] in *.
  apply rt_trans with (y := d1); assumption.
Qed.

Section WithClock.

Variable conv : json -> exn + Z.

Lemma dispatch_steps (w : world) (upd : Update) (s : state) :
  clos_refl_trans DB store_step (db s) (db (after (dispatch conv w upd s))).
Proof.
  destruct (dispatch_db conv w upd s) as [H|[H|[[_ H]|[X [_ H]]]]]; rewrite H.
  - apply rt_refl.
  - apply get_or_create_user_steps.
  - apply set_genres_command_steps.
  - apply genre_callback_steps.
Qed.

(** X17.  From tables in key order, every sequence of updates leads to
    tables in key order: keys are positive and grow down each table, so
    no key is given twice and the order of a listing is the order of
    the keys. *)
Theorem tables_stay_in_key_order (inputs : list (world * Update)) (s : state) :
  tables_in_key_order (db s) ->
  let d := db (run conv inputs s) in
  tables_in_key_order d
  /\ NoDup (map User.id (users d))
  /\ NoDup (map Genre.id (genres d)).
Proof.
  intros Hstart d. subst d.
  assert (Hend : tables_in_key_order (db (run conv inputs s))).
  { revert s Hstart. induction inputs as [|[w upd] rest IH]; intros s Hstart;
      cbn; [exact Hstart|].
    apply IH.
    pose proof (dispatch_steps w upd s) as Hsteps.
    induction Hsteps as [a b Hstep | a | a b c _ IHab _ IHbc];
      [exact (store_step_key_order a b Hstep Hstart) | exact Hstart | auto]. }
  split; [exact Hend|]. destruct Hend as [Hu Hg].
  split; apply keys_increasing_NoDup; assumption.
Qed.

(** X18.  [/getfilm] from a sender who has a row, when both lookups go
    through: the tables stay as they are, the client is called with the
    prompt built from exactly the sender's stored labels in table
    order, that prompt is what reaches the completion endpoint (once,
    if the token could be obtained), and the answer is the text the
    client returned, or the error text when the client raised. *)
Theorem get_film_sends_stored_labels (w : world) (sender : tg_user)
    (row : User.t) (s : state) :
  stmt_raises (user_session w) = false ->
  stmt_raises (handler_session w) = false ->
  query_user_first (tg_id sender) (db s) = Some row ->
  let prompt := film_prompt (labels_of (User.id row) (db s)) in
  let o := GigaChat.generate_recipe conv prompt (utcnow w)
             (token_reply w) (completion_reply w) (giga_chat_api s) in
  let h := get_film conv w (Some sender) s in
  db (after h) = db s
  /\ giga_chat_api (after h) = GigaChat.out_self o
  /\ output h
     = Some (inr match GigaChat.out_result o with
                 | inr film_suggestion => ReplyMarkdown film_suggestion
                 | inl _ =>
                     ReplyText
                       (u "Произошла ошибка при получении рекомендации.")
                       NoMarkup
                 end)
  /\ GigaChat.completion_posts (api_trace h)
     = match GigaChat.out_result
               (GigaChat.get_access_token conv (utcnow w) (token_reply w)
                  (giga_chat_api s)) with
       | inr bearer => [GigaChat.CompletionPost bearer prompt]
       | inl _ => []
       end.
Proof.
  intros Hfu Hfh Hrow prompt o h. subst h. unfold get_film.
  rewrite (BotSpec.get_or_create_user_registered (user_session w) sender
             (db s) row Hfu Hrow).
  cbn [attr_id]. rewrite Hfh. fold (labels_of (User.id row) (db s)).
  fold prompt. fold o. cbn [after db giga_chat_api output api_trace].
  repeat split.
  subst o. apply GigaChatMore.generate_recipe_posts.
Qed.

End WithClock.

(** X19.  Called with a payload that has no underscore, [genre_callback]
    raises [IndexError] at line 263, before any session is opened:
    nothing is looked up, no row of [users] is created and nothing is
    answered.  The pattern given to the dispatcher is what keeps such
    payloads away. *)
Theorem genre_callback_without_underscore (fu fh : session_faults)
    (sender : option tg_user) (data : pystr) (d : DB) :
  Forall (fun c => c <> 95) data ->
  genre_callback fu fh sender data d = (d, inl IndexError).
Proof.
  intros Hnone. unfold genre_callback.
  assert (split_underscore_1 data = [data]) as ->; [|reflexivity].
  induction Hnone as [|c r Hc _ IH]; cbn; [reflexivity|].
  destruct (Z.eqb_spec c 95); [contradiction|]. rewrite IH. reflexivity.
Qed.

Lemma genre_callback_without_underscore_witness :
  genre_callback no_faults no_faults (Some (mkTgUser 42 None)) (u "genre") empty
  = (empty, inl IndexError).
Proof.
  apply genre_callback_without_underscore.
  vm_compute. repeat constructor; discriminate.
Defined.

(** *** The theorems above on a small database

    Two users, Telegram ids 42 and 43; the first has one stored
    label. *)

Lemma stored_user_is_stable_witness :
  query_user_first 42
    (db (run GigaChat.utcfromtimestamp_exact
           [(mkWorld no_faults no_faults 0 GigaChat.Transport_failure
               GigaChat.Transport_failure,
             mkUpdate (Some (mkTgUser 42 (Some (u "renamed"))))
               (Command (u "start")))]
           (mkState (mkDB [User.mk 1 42 (Some (u "ann"))] [])
              (GigaChat.init [] 0))))
  = Some (User.mk 1 42 (Some (u "ann"))).
Proof.
  apply stored_user_is_stable. reflexivity.
Defined.

Lemma other_users_labels_untouched_witness :
  labels_of 1
    (db (after
           (dispatch GigaChat.utcfromtimestamp_exact
              (mkWorld no_faults no_faults 0 GigaChat.Transport_failure
                 GigaChat.Transport_failure)
              (mkUpdate (Some (mkTgUser 43 None)) (Command (u "setgenres")))
              (mkState
                 (mkDB [User.mk 1 42 (Some (u "ann")); User.mk 2 43 None]
                       [Genre.mk 1 (u "Драма") 1; Genre.mk 2 (u "Ужасы") 2])
                 (GigaChat.init [] 0)))))
  = [u "Драма"].
Proof.
  pose proof (other_users_labels_untouched GigaChat.utcfromtimestamp_exact
                (mkWorld no_faults no_faults 0 GigaChat.Transport_failure
                   GigaChat.Transport_failure)
                (mkTgUser 43 None) (Command (u "setgenres"))
                (mkState
                   (mkDB [User.mk 1 42 (Some (u "ann")); User.mk 2 43 None]
                         [Genre.mk 1 (u "Драма") 1; Genre.mk 2 (u "Ужасы") 2])
                   (GigaChat.init [] 0))
                (User.mk 2 43 None) 1 eq_refl) as H.
  rewrite H; [reflexivity|]. cbn. lia.
Defined.

Lemma set_genres_failed_delete_witness :
  fst (set_genres_command no_faults (mkFaults false false true)
         (Some (mkTgUser 42 None))
         (mkDB [User.mk 1 42 (Some (u "ann"))] [Genre.mk 1 (u "Драма") 1]))
  = mkDB [User.mk 1 42 (Some (u "ann"))] [Genre.mk 1 (u "Драма") 1].
Proof.
  rewrite (set_genres_failed_delete_is_silent no_faults
             (mkFaults false false true) (mkTgUser 42 None)
             (User.mk 1 42 (Some (u "ann")))
             (mkDB [User.mk 1 42 (Some (u "ann"))] [Genre.mk 1 (u "Драма") 1])
             eq_refl eq_refl (or_intror eq_refl)).
  reflexivity.
Defined.

Lemma press_after_setgenres_witness :
  labels_of 1
    (fst (genre_callback no_faults no_faults (Some (mkTgUser 42 None))
            (u "genre_" ++ u "Мультфильмы/Анимация")
            (fst (set_genres_command no_faults no_faults
                    (Some (mkTgUser 42 None))
                    (mkDB [User.mk 1 42 None] [Genre.mk 1 (u "Драма") 1])))))
  = [u "Мультфильмы/Анимация"].
Proof.
  pose proof (press_after_setgenres (mkTgUser 42 None) (User.mk 1 42 None)
                (mkDB [User.mk 1 42 None] [Genre.mk 1 (u "Драма") 1])
                (u "Выберите жанры заново (можно нажать несколько раз).")
                (u "Мультфильмы/Анимация")
                (u "genre_" ++ u "Мультфильмы/Анимация")
                (map (fun g => [(g, u "genre_" ++ g)]) AVAILABLE_GENRES)
                eq_refl eq_refl) as H.
  cbv zeta in H.
  assert (Hin : In [(u "Мультфильмы/Анимация",
                     u "genre_" ++ u "Мультфильмы/Анимация")]
                  (map (fun g => [(g, u "genre_" ++ g)]) AVAILABLE_GENRES)).
  { apply in_map_iff. exists (u "Мультфильмы/Анимация").
    split; [reflexivity|]. vm_compute. tauto. }
  exact (proj2 (proj2 (H Hin))).
Defined.

Lemma get_genres_first_contact_witness :
  snd (get_genres no_faults no_faults (Some (mkTgUser 42 None)) empty)
  = ReplyText (u "Произошла ошибка при получении жанров.") NoMarkup
  /\ snd (get_genres no_faults no_faults (Some (mkTgUser 42 None))
            (fst (get_genres no_faults no_faults (Some (mkTgUser 42 None))
                    empty)))
     = ReplyText NO_GENRES NoMarkup.
Proof.
  pose proof (get_genres_first_contact (mkTgUser 42 None) empty eq_refl) as H.
  cbv zeta in H. destruct H as [Hfirst Hsecond].
  split.
  - rewrite Hfirst. reflexivity.
  - rewrite Hsecond. reflexivity.
Defined.

Lemma listed_labels_are_distinct_witness :
  NoDup
    (labels_of 1
       (db (run GigaChat.utcfromtimestamp_exact
              [(mkWorld no_faults no_faults 0 GigaChat.Transport_failure
                  GigaChat.Transport_failure,
                mkUpdate (Some (mkTgUser 42 None))
                  (CallbackQuery (u "genre_Драма")))]
              (mkState (mkDB [User.mk 1 42 None] [Genre.mk 1 (u "Драма") 1])
                 (GigaChat.init [] 0))))).
Proof.
  apply listed_labels_are_distinct.
  - constructor; [intros [] | constructor].
  - constructor; [intros [] | constructor].
Defined.

Lemma tables_stay_in_key_order_witness :
  NoDup
    (map Genre.id
       (genres
          (db (run GigaChat.utcfromtimestamp_exact
                 [(mkWorld no_faults no_faults 0 GigaChat.Transport_failure
                     GigaChat.Transport_failure,
                   mkUpdate (Some (mkTgUser 42 None))
                     (CallbackQuery (u "genre_Ужасы")))]
                 (mkState (mkDB [User.mk 1 42 None] [Genre.mk 1 (u "Драма") 1])
                    (GigaChat.init [] 0)))))).
Proof.
  refine (proj2 (proj2 (tables_stay_in_key_order GigaChat.utcfromtimestamp_exact
                          _ _ _))).
  repeat split; repeat constructor.
Defined.

Lemma get_film_sends_stored_labels_witness :
  GigaChat.completion_posts
    (api_trace
       (get_film GigaChat.utcfromtimestamp_exact
          (mkWorld no_faults no_faults 5 GigaChat.Transport_failure
             GigaChat.Transport_failure)
          (Some (mkTgUser 42 None))
          (mkState (mkDB [User.mk 1 42 None] [Genre.mk 1 (u "Драма") 1])
             (GigaChat.mkAPI (u "key") (JStr (u "t1")) 9))))
  = [GigaChat.CompletionPost (JStr (u "t1")) (film_prompt [u "Драма"])].
Proof.
  pose proof (get_film_sends_stored_labels GigaChat.utcfromtimestamp_exact
                (mkWorld no_faults no_faults 5 GigaChat.Transport_failure
                   GigaChat.Transport_failure)
                (mkTgUser 42 None) (User.mk 1 42 None)
                (mkState (mkDB [User.mk 1 42 None] [Genre.mk 1 (u "Драма") 1])
                   (GigaChat.mkAPI (u "key") (JStr (u "t1")) 9))
                eq_refl eq_refl eq_refl) as H.
  cbv zeta in H. destruct H as [_ [_ [_ H]]].
  vm_compute in H. vm_compute. exact H.
Defined.

Lemma genres_change_only_by_setgenres_or_press_witness :
  let d0 := mkDB [User.mk 1 42 (Some (u "ann"))] [Genre.mk 1 (u "Драма") 1] in
  db (after
        (dispatch GigaChat.utcfromtimestamp_exact
           (mkWorld no_faults (mkFaults true true true) 0
              GigaChat.Transport_failure GigaChat.Transport_failure)
           (mkUpdate (Some (mkTgUser 42 None)) (Command (u "GetGenres")))
           (mkState d0 (GigaChat.init [] 0))))
  = d0.
Proof.
  intros d0.
  destruct (genres_change_only_by_setgenres_or_press
              GigaChat.utcfromtimestamp_exact
              (mkWorld no_faults (mkFaults true true true) 0
                 GigaChat.Transport_failure GigaChat.Transport_failure)
              (mkUpdate (Some (mkTgUser 42 None)) (Command (u "GetGenres")))
              (mkState d0 (GigaChat.init [] 0)))
    as [H | [[name [[E | E] Hname]] | [X E]]].
  - intros known E. injection E as <-. discriminate.
  - exact H.
  - exfalso. cbn [update_content] in E. injection E as <-.
    vm_compute in Hname. discriminate Hname.
  - discriminate E.
  - discriminate E.
Defined.

Lemma dispatch_raises_only_without_message_witness :
  let h := dispatch GigaChat.utcfromtimestamp_exact
             (mkWorld no_faults no_faults 0 GigaChat.Transport_failure
                GigaChat.Transport_failure)
             (mkUpdate (Some (mkTgUser 42 None)) (EditedCommand (u "help")))
             (mkState empty (GigaChat.init [] 0)) in
  output h = Some (inl AttributeError)
  /\ ((exists name, EditedCommand (u "help") = EditedCommand name)
      \/ exists text, EditedCommand (u "help") = TextElsewhere text).
Proof.
  intros h.
  assert (Hout : output h = Some (inl AttributeError))
    by (vm_compute; reflexivity).
  split; [exact Hout|].
  exact (proj2 (dispatch_raises_only_without_message
                  GigaChat.utcfromtimestamp_exact _ _ _ _ Hout)).
Defined.

End BotMore.
